(** * zerox (pyzerox): the page completion pipeline

    A shallow embedding of
    - [pyzerox/processor/text.py]       ([format_markdown]),
    - [pyzerox/models/modellitellm.py]  ([litellmmodel]: the [system_prompt]
      property, [_prepare_messages] and [completion]),
    - [pyzerox/constants/prompts.py]    ([Prompts]).

    Python values are a small tagged union, exceptions are values of an
    error monad, the class attribute and the instance attributes of
    [litellmmodel] live in an explicit store, and the two collaborators the
    code awaits (the image encoder and the completion transport) are
    parameters of the development. *)

From Stdlib Require Import ZArith Ascii String.
From Stdlib Require Import Numbers.DecimalString.
From stdpp Require Import base option list strings functions.

(** ** Characters and strings *)

(** Python's ["\n"]. *)
Definition nl : string := String "010"%char EmptyString.

(** The double quote, and Python's three-double-quote run. *)
Definition dquote : ascii := "034"%char.
Definition triple_dquote : string :=
  String dquote (String dquote (String dquote EmptyString)).

(** [s.startswith(p)], returning what follows [p]. *)
Fixpoint strip_prefix (p s : string) : option string :=
  match p with
  | EmptyString => Some s
  | String a p' =>
      match s with
      | String b s' => if Ascii.eqb a b then strip_prefix p' s' else None
      | EmptyString => None
      end
  end.

(** [s.endswith(p)], returning what precedes [p]. *)
Fixpoint strip_suffix (p s : string) : option string :=
  if String.eqb s p then Some EmptyString
  else match s with
       | String a s' => String a <$> strip_suffix p s'
       | EmptyString => None
       end.

(** [needle in hay]. *)
Fixpoint occurs (needle hay : string) : bool :=
  match strip_prefix needle hay with
  | Some _ => true
  | None =>
      match hay with
      | String _ hay' => occurs needle hay'
      | EmptyString => false
      end
  end.

(** ** Python values *)

(** The values that travel through the pipeline: what a provider's JSON
    payload decodes to. Floats are left out, and a str is held as its
    characters, one [ascii] each. *)
#[warning="-register-all"]
Inductive pyobj : Type :=
| PNone
| PBool (b : bool)
| PInt (n : Z)
| PStr (s : string)
| PList (xs : list pyobj)
| PDict (kvs : list (string * pyobj)).

(** [bool(v)]. *)
Definition truthy (v : pyobj) : bool :=
  match v with
  | PNone => false
  | PBool b => b
  | PInt n => negb (n =? 0)%Z
  | PStr s => negb (String.eqb s "")
  | PList xs => match xs with [] => false | _ => true end
  | PDict kvs => match kvs with [] => false | _ => true end
  end.

(** [type(v).__name__]. *)
Definition type_name (v : pyobj) : string :=
  match v with
  | PNone => "NoneType"
  | PBool _ => "bool"
  | PInt _ => "int"
  | PStr _ => "str"
  | PList _ => "list"
  | PDict _ => "dict"
  end.

(** [str(n)] for an int. *)
Definition Z_to_string (n : Z) : string :=
  NilEmpty.string_of_int (Z.to_int n).

Definition hex_digit (n : nat) : ascii :=
  match String.get n "0123456789abcdef" with
  | Some c => c
  | None => "0"%char
  end.

(** One character of [repr] of a str, for the quote [q] in use. A
    character is a code point below 256; the ones that are not printable
    (below 32, and 127 to 160, and 173) are written as [\xNN]. *)
Definition repr_char (q c : ascii) : string :=
  let n := nat_of_ascii c in
  if Ascii.eqb c q || Ascii.eqb c "\"%char then String "\"%char (String c "")
  else if Ascii.eqb c "009"%char then "\t"
  else if Ascii.eqb c "010"%char then "\n"
  else if Ascii.eqb c "013"%char then "\r"
  else if (n <? 32)%nat || ((127 <=? n)%nat && (n <=? 160)%nat)
          || (n =? 173)%nat then
    "\x" +:+ String (hex_digit (n / 16)) (String (hex_digit (n mod 16)) "")
  else String c "".

Fixpoint has_char (c : ascii) (s : string) : bool :=
  match s with
  | EmptyString => false
  | String a s' => Ascii.eqb a c || has_char c s'
  end.

Fixpoint flat_map_string (f : ascii -> string) (s : string) : string :=
  match s with
  | EmptyString => EmptyString
  | String a s' => f a +:+ flat_map_string f s'
  end.

(** [repr(s)] for a str: single quotes, unless the text has a single quote
    and no double quote. *)
Definition repr_str (s : string) : string :=
  let q := if has_char "'"%char s && negb (has_char dquote s)
           then dquote else "'"%char in
  String q (flat_map_string (repr_char q) s) +:+ String q "".

(** [repr(v)]. *)
Fixpoint py_repr (v : pyobj) : string :=
  match v with
  | PNone => "None"
  | PBool b => if b then "True" else "False"
  | PInt n => Z_to_string n
  | PStr s => repr_str s
  | PList xs => "[" +:+ String.concat ", " (List.map py_repr xs) +:+ "]"
  | PDict kvs =>
      "{" +:+ String.concat ", "
                (List.map (fun kv => match kv with
                                     | (k, x) => repr_str k +:+ ": " +:+ py_repr x
                                     end) kvs) +:+ "}"
  end.

(** [str(v)], which is also what an f-string field [{v}] renders. *)
Definition py_str (v : pyobj) : string :=
  match v with
  | PStr s => s
  | _ => py_repr v
  end.

(** ** Exceptions and fallible computations *)

(** The classes of the exceptions that occur. [BaseExceptionOnly] stands for
    the classes outside [Exception] ([asyncio.CancelledError],
    [KeyboardInterrupt], ...), which [except Exception] lets through. *)
Inductive exn_class : Type :=
| KeyError
| IndexError
| TypeError
| AttributeError
| PlainException
| ExceptionSubclass (name : string)
| BaseExceptionOnly (name : string).

(** An exception: its class and [str(err)]. *)
Record exn : Type := mk_exn { exn_cls : exn_class; exn_text : string }.

(** [isinstance(err, Exception)]. *)
Definition is_Exception (e : exn) : bool :=
  match exn_cls e with
  | BaseExceptionOnly _ => false
  | _ => true
  end.

Inductive outcome (A : Type) : Type :=
| Ok (a : A)
| Raise (e : exn).
Arguments Ok {A} a.
Arguments Raise {A} e.

#[global] Instance outcome_bind : MBind outcome :=
  fun A B (k : A -> outcome B) (m : outcome A) =>
    match m with
    | Ok a => k a
    | Raise e => Raise e
    end.

#[global] Instance outcome_ret : MRet outcome := fun A (a : A) => Ok a.

(** A list comprehension whose element expression can raise. *)
Fixpoint comprehension {A B : Type} (f : A -> outcome B) (xs : list A)
  : outcome (list B) :=
  match xs with
  | [] => Ok []
  | x :: xs' => y ← f x; ys ← comprehension f xs'; Ok (y :: ys)
  end.

(** ** Subscripts, [.get] and iteration *)

Fixpoint assoc (k : string) (kvs : list (string * pyobj)) : option pyobj :=
  match kvs with
  | [] => None
  | (k', v) :: kvs' => if String.eqb k k' then Some v else assoc k kvs'
  end.

Definition not_subscriptable (v : pyobj) : exn :=
  mk_exn TypeError ("'" +:+ type_name v +:+ "' object is not subscriptable").

(** [v[k]] for a str key [k]. *)
Definition getitem_key (v : pyobj) (k : string) : outcome pyobj :=
  match v with
  | PDict kvs =>
      match assoc k kvs with
      | Some x => Ok x
      | None => Raise (mk_exn KeyError (repr_str k))
      end
  | PList _ =>
      Raise (mk_exn TypeError "list indices must be integers or slices, not str")
  | PStr _ =>
      Raise (mk_exn TypeError "string indices must be integers, not 'str'")
  | _ => Raise (not_subscriptable v)
  end.

(** [v[0]]. *)
Definition getitem_0 (v : pyobj) : outcome pyobj :=
  match v with
  | PList xs =>
      match xs with
      | x :: _ => Ok x
      | [] => Raise (mk_exn IndexError "list index out of range")
      end
  | PStr s =>
      match s with
      | String c _ => Ok (PStr (String c ""))
      | EmptyString => Raise (mk_exn IndexError "string index out of range")
      end
  | PDict _ => Raise (mk_exn KeyError "0")
  | _ => Raise (not_subscriptable v)
  end.

(** [v.get(k, dflt)]. *)
Definition get_default (v : pyobj) (k : string) (dflt : pyobj) : outcome pyobj :=
  match v with
  | PDict kvs => Ok (default dflt (assoc k kvs))
  | _ => Raise (mk_exn AttributeError
                  ("'" +:+ type_name v +:+ "' object has no attribute 'get'"))
  end.

Fixpoint chars (s : string) : list pyobj :=
  match s with
  | EmptyString => []
  | String c s' => PStr (String c "") :: chars s'
  end.

(** The items [for box in v] visits. *)
Definition py_iter (v : pyobj) : outcome (list pyobj) :=
  match v with
  | PList xs => Ok xs
  | PStr s => Ok (chars s)
  | PDict kvs => Ok (List.map (fun kv => PStr (fst kv)) kvs)
  | _ => Raise (mk_exn TypeError ("'" +:+ type_name v +:+ "' object is not iterable"))
  end.

(** ** [pyzerox/constants/patterns.py] and [re.sub] *)

(** Modelled from the spec: the shape of the two patterns of
    [constants/patterns.py], which is not among the sources. The spec has
    each pattern strip one layer of fence wrapping that encloses the entire
    answer, without altering the inner content: a pattern matches a text
    wrapped, from its first character to its last, in an opening fence line
    and a closing fence, and captures what lies between as group 1. *)
Record fence_pattern : Type :=
  mk_fence { fence_open : string; fence_close : string }.

(** Modelled from the spec: [Patterns.MATCH_MARKDOWN_BLOCKS]; the file
    [constants/patterns.py] is not among the sources. The spec has the
    model wrapping its entire answer as [```markdown\n...\n```]. *)
Definition MATCH_MARKDOWN_BLOCKS : fence_pattern :=
  mk_fence ("```markdown" +:+ nl) (nl +:+ "```").

(** Modelled from the spec: [Patterns.MATCH_CODE_BLOCKS], from the same
    missing file: the generic fence, [```\n...\n```], under the same rule. *)
Definition MATCH_CODE_BLOCKS : fence_pattern :=
  mk_fence ("```" +:+ nl) (nl +:+ "```").

(** Group 1 of the match of [p] against the whole of [text], if any. *)
Definition fence_match (p : fence_pattern) (text : string) : option string :=
  rest ← strip_prefix (fence_open p) text;
  strip_suffix (fence_close p) rest.

(** [re.sub(p, r"\1", text)]: the match, which can only be the whole text,
    is replaced by its group 1; a text that does not match is returned as
    it is. *)
Definition re_sub_group1 (p : fence_pattern) (text : string) : string :=
  default text (fence_match p text).

(** ** [pyzerox/processor/text.py] *)

(** The f-string of one box. [box['image']] is evaluated first. *)
Definition box_markdown (box : pyobj) : outcome string :=
  image ← getitem_key box "image";
  bounding_box ← getitem_key box "bounding_box";
  Ok ("![Image](data:image/png;base64," +:+ py_str image +:+ ")"
      +:+ nl +:+ nl +:+ "Bounding Box: " +:+ py_str bounding_box).

(** [format_markdown(text, bounding_boxes)]; [bounding_boxes] defaults to
    [None]. *)
Definition format_markdown (text : string) (bounding_boxes : pyobj)
  : outcome string :=
  let formatted_markdown := re_sub_group1 MATCH_MARKDOWN_BLOCKS text in
  let formatted_markdown := re_sub_group1 MATCH_CODE_BLOCKS formatted_markdown in
  if truthy bounding_boxes then
    boxes ← py_iter bounding_boxes;
    blocks ← comprehension box_markdown boxes;
    let bounding_box_markdown := String.concat (nl +:+ nl) blocks in
    Ok (formatted_markdown +:+ nl +:+ nl +:+ bounding_box_markdown)
  else Ok formatted_markdown.

(** ** [pyzerox/constants/prompts.py] *)

Module Prompts.

Definition DEFAULT_SYSTEM_PROMPT : string :=
  nl +:+ "    Convert the following PDF page to markdown."
  +:+ nl +:+ "    Return only the markdown with no explanation text."
  +:+ nl +:+ "    Do not exclude any content from the page."
  +:+ nl +:+ "    ".

Definition BOUNDING_BOX_PROMPT : string :=
  nl +:+ "    Convert the following PDF page to markdown."
  +:+ nl +:+ "    Return only the markdown with no explanation text."
  +:+ nl +:+ "    Do not exclude any content from the page."
  +:+ nl +:+ "    Include the bounding box coordinates of any inline images."
  +:+ nl +:+ "    ".

End Prompts.

(** ** [pyzerox/models/modellitellm.py] *)

(** The module global [DEFAULT_SYSTEM_PROMPT]. *)
Definition DEFAULT_SYSTEM_PROMPT : string := Prompts.DEFAULT_SYSTEM_PROMPT.

(** What [__init__] and the setter leave in the [__dict__] of one
    [litellmmodel] object. The entry [_system_prompt] is absent until the
    setter has run on the object. *)
Record instance : Type := mk_instance {
  inst_model : option string;
  inst_kwargs : list (string * pyobj);
  inst_system_prompt : option string
}.

(** One call of the transport:
    [litellm.acompletion(model=..., messages=..., **kwargs)]. *)
Record transport_call : Type := mk_call {
  call_model : option string;
  call_messages : list pyobj;
  call_kwargs : list (string * pyobj)
}.

(** The state the class works on: the class attribute
    [litellmmodel._system_prompt], the objects by identity, the warnings
    issued through [warnings.warn] and the transport calls made, both
    oldest first. What the active warnings filter then does with an issued
    warning is the host's configuration and is not part of the state. *)
Record world : Type := mk_world {
  cls_system_prompt : string;
  heap : nat -> instance;
  warnings : list string;
  calls : list transport_call
}.

(** The state after the class statement has run, with objects that no
    setter has touched. *)
Definition fresh_instance : instance := mk_instance None [] None.
Definition initial_world : world :=
  mk_world DEFAULT_SYSTEM_PROMPT (fun _ => fresh_instance) [] [].

(** Modelled from the spec: [CompletionResponse]; [models/types.py] is not
    among the sources. The spec gives the result the fields [content],
    [input_tokens], [output_tokens] and [bounding_boxes]; the constructor
    stores what it is given. *)
Record CompletionResponse : Type := mk_CompletionResponse {
  content : pyobj;
  input_tokens : pyobj;
  output_tokens : pyobj;
  bounding_boxes : pyobj
}.

(** The literal dicts [_prepare_messages] builds. *)
Definition system_message (prompt : string) : pyobj :=
  PDict [("role", PStr "system"); ("content", PStr prompt)].

Definition continuity_preamble : string :=
  "Markdown must maintain consistent formatting with the following page: "
  +:+ nl +:+ nl +:+ " ".

Definition continuity_text (prior_page : string) : string :=
  continuity_preamble +:+ triple_dquote +:+ prior_page +:+ triple_dquote.

Definition continuity_message (prior_page : string) : pyobj :=
  PDict [("role", PStr "system"); ("content", PStr (continuity_text prior_page))].

Definition user_message (base64_image : string) : pyobj :=
  PDict [("role", PStr "user");
         ("content",
          PList [PDict [("type", PStr "image_url");
                        ("image_url",
                         PDict [("url", PStr ("data:image/png;base64,"
                                              +:+ base64_image))])]])].

(** [response["choices"][0]["message"]["content"]] and the other three
    keyword arguments of [CompletionResponse(...)], evaluated in the order
    they are written. *)
Definition read_response (response : pyobj) : outcome CompletionResponse :=
  choices ← getitem_key response "choices";
  choice ← getitem_0 choices;
  message ← getitem_key choice "message";
  content ← getitem_key message "content";
  usage ← getitem_key response "usage";
  input_tokens ← getitem_key usage "prompt_tokens";
  usage ← getitem_key response "usage";
  output_tokens ← getitem_key usage "completion_tokens";
  choices ← getitem_key response "choices";
  choice ← getitem_0 choices;
  message ← getitem_key choice "message";
  bounding_boxes ← get_default message "bounding_boxes" (PList []);
  Ok (mk_CompletionResponse content input_tokens output_tokens bounding_boxes).

(** The first key of [**self.kwargs] that repeats a keyword the call
    already passes; such a key makes the call itself raise. *)
Fixpoint duplicate_keyword (kwargs : list (string * pyobj)) : option string :=
  match kwargs with
  | [] => None
  | (k, _) :: kwargs' =>
      if String.eqb k "model" || String.eqb k "messages" then Some k
      else duplicate_keyword kwargs'
  end.

Section litellmmodel.

(** [Messages.CUSTOM_SYSTEM_PROMPT_WARNING]; [constants/messages.py] is
    not among the sources, and any text can stand here. *)
Variable CUSTOM_SYSTEM_PROMPT_WARNING : string.

(** Modelled from the spec: [Messages.COMPLETION_ERROR], from the same
    missing file. The spec has the error message embed the description of
    the cause, so the template is a text with one replacement field
    [{0}]; what stands before and after the field can be any text. *)
Variables COMPLETION_ERROR_before COMPLETION_ERROR_after : string.

(** [Messages.COMPLETION_ERROR.format(err)]. *)
Definition COMPLETION_ERROR_format (err : exn) : string :=
  COMPLETION_ERROR_before +:+ exn_text err +:+ COMPLETION_ERROR_after.

(** [processor.image.encode_image_to_base64], the image encoder: for a
    path, the base64 text of the file or the exception it raises. *)
Variable encode_image_to_base64 : string -> outcome string.

(** [litellm.acompletion], the completion transport: for the calls made
    so far and the present call, the provider response or the exception
    raised. *)
Variable acompletion : list transport_call -> transport_call -> outcome pyobj.

(** The attribute read [self._system_prompt]: the entry of the object if
    it has one, the class attribute otherwise. *)
Definition get_system_prompt_attr (w : world) (self : nat) : string :=
  default (cls_system_prompt w) (inst_system_prompt (heap w self)).

(** The [system_prompt] property. *)
Definition system_prompt (w : world) (self : nat) : string :=
  get_system_prompt_attr w self.

(** The [system_prompt] setter: [warnings.warn(...)], then the attribute
    write [self._system_prompt = prompt]. *)
Definition system_prompt_setter (w : world) (self : nat) (prompt : string)
  : world :=
  let message :=
    CUSTOM_SYSTEM_PROMPT_WARNING +:+ ". Default prompt for zerox is:"
    +:+ nl +:+ " " +:+ DEFAULT_SYSTEM_PROMPT in
  let warned := warnings w ++ [message] in
  let old := heap w self in
  let new := mk_instance (inst_model old) (inst_kwargs old) (Some prompt) in
  mk_world (cls_system_prompt w) (<[self := new]> (heap w)) warned (calls w).

Definition _prepare_messages (w : world) (self : nat)
    (image_path : string) (maintain_format : bool) (prior_page : string)
  : outcome (list pyobj) :=
  let messages := [system_message (get_system_prompt_attr w self)] in
  let messages :=
    if maintain_format && truthy (PStr prior_page)
    then messages ++ [continuity_message prior_page]
    else messages in
  base64_image ← encode_image_to_base64 image_path;
  Ok (messages ++ [user_message base64_image]).

(** The body of the [try] of [completion]. The text of the [TypeError] of
    a repeated keyword is CPython's, which names the callee by its module
    and qualified name. *)
Definition send_and_read (w : world) (self : nat) (messages : list pyobj)
  : world * outcome CompletionResponse :=
  let this := heap w self in
  match duplicate_keyword (inst_kwargs this) with
  | Some k =>
      (w, Raise (mk_exn TypeError
                   ("litellm.main.acompletion() got multiple values for keyword argument "
                    +:+ repr_str k)))
  | None =>
      let call := mk_call (inst_model this) messages (inst_kwargs this) in
      let w' := mk_world (cls_system_prompt w) (heap w) (warnings w)
                         (calls w ++ [call]) in
      (w', response ← acompletion (calls w) call; read_response response)
  end.

Definition completion (w : world) (self : nat)
    (image_path : string) (maintain_format : bool) (prior_page : string)
  : world * outcome CompletionResponse :=
  match _prepare_messages w self image_path maintain_format prior_page with
  | Raise e => (w, Raise e)
  | Ok messages =>
      match send_and_read w self messages with
      | (w', Ok response) => (w', Ok response)
      | (w', Raise err) =>
          if is_Exception err
          then (w', Raise (mk_exn PlainException (COMPLETION_ERROR_format err)))
          else (w', Raise err)
      end
  end.

End litellmmodel.

(** ** Vocabulary of the statements *)

(** Whether [p] matches [text]. *)
Definition is_wrapped (p : fence_pattern) (text : string) : bool :=
  match fence_match p text with
  | Some _ => true
  | None => false
  end.

(** The two entries the f-string reads from a box that is a dict with
    both keys. *)
Definition box_fields (box : pyobj) : option (pyobj * pyobj) :=
  match box with
  | PDict kvs =>
      image ← assoc "image" kvs;
      bounding_box ← assoc "bounding_box" kvs;
      Some (image, bounding_box)
  | _ => None
  end.

(** An inline image reference, a blank line, a coordinate line. *)
Definition image_reference (image : pyobj) : string :=
  "![Image](data:image/png;base64," +:+ py_str image +:+ ")".
Definition coordinate_line (bounding_box : pyobj) : string :=
  "Bounding Box: " +:+ py_str bounding_box.
Definition blank_line : string := nl +:+ nl.
Definition box_block (fields : pyobj * pyobj) : string :=
  image_reference fields.1 +:+ blank_line +:+ coordinate_line fields.2.

(** Whether every box is a dict with the two keys the f-string reads. *)
Definition well_formed_boxes (boxes : list pyobj) : bool :=
  forallb (fun box => match box_fields box with
                      | Some _ => true
                      | None => false
                      end) boxes.

(** The value under ["role"], and the number of entries of a role. *)
Definition has_role (r : string) (message : pyobj) : bool :=
  match getitem_key message "role" with
  | Ok (PStr r') => String.eqb r r'
  | _ => false
  end.
Definition count_role (r : string) (messages : list pyobj) : nat :=
  length (List.filter (has_role r) messages).

(** ** Concrete collaborators, for the examples *)

Definition example_box : pyobj :=
  PDict [("image", PStr "AAAA");
         ("bounding_box", PList [PInt 0; PInt 0; PInt 10; PInt 10])].

Definition example_encoding_error : exn :=
  mk_exn (ExceptionSubclass "FileNotFoundError")
    "[Errno 2] No such file or directory: 'missing.png'".

(** An encoder that finds every file but [missing.png]. *)
Definition example_encoder (image_path : string) : outcome string :=
  if String.eqb image_path "missing.png"
  then Raise example_encoding_error
  else Ok "AAAA".

Definition example_transport_error : exn :=
  mk_exn (ExceptionSubclass "APIConnectionError") "connection refused".

Definition example_response : pyobj :=
  PDict [("choices",
          PList [PDict [("message",
                         PDict [("role", PStr "assistant");
                                ("content", PStr "Hello")])]]);
         ("usage",
          PDict [("prompt_tokens", PInt 10); ("completion_tokens", PInt 5)])].

(** A transport whose behaviour is chosen by the model name. *)
Definition example_transport (_ : list transport_call) (call : transport_call)
  : outcome pyobj :=
  match call_model call with
  | Some "unreachable" => Raise example_transport_error
  | Some "cancelled" => Raise (mk_exn (BaseExceptionOnly "CancelledError") "")
  | Some "no-usage" =>
      Ok (PDict [("choices",
                  PList [PDict [("message", PDict [("content", PStr "Hello")])]])])
  | _ => Ok example_response
  end.

(** The initial state with every object created for [model]. *)
Definition example_world (model : option string) : world :=
  mk_world DEFAULT_SYSTEM_PROMPT (fun _ => mk_instance model [] None) [] [].

Definition example_messages : list pyobj :=
  [system_message DEFAULT_SYSTEM_PROMPT;
   continuity_message "# Page 1";
   user_message "AAAA"].

(** ** [litellmmodel.__init__] and the three validations *)

(** [self.model] as a value. *)
Definition model_value (this : instance) : pyobj :=
  match inst_model this with
  | Some m => PStr m
  | None => PNone
  end.

Section litellmmodel_init.

(** [BaseModel.__init__], from [models/base.py], which is not among the
    sources: any change of the state, and possibly an exception. *)
Variable BaseModel_init :
  world -> nat -> option string -> list (string * pyobj) -> world * outcome unit.

(** [str] of an error of the package's [errors] module, which is not among
    the sources, for the name of its class and its [extra_info]. *)
Variable error_text : string -> pyobj -> string.

(** [litellm.validate_environment], [litellm.supports_vision] and
    [litellm.check_valid_key] (with [api_key=None]), for the model. *)
Variable litellm_validate_environment : pyobj -> outcome pyobj.
Variable litellm_supports_vision : pyobj -> outcome pyobj.
Variable litellm_check_valid_key : pyobj -> outcome pyobj.

(** [Cls(extra_info=...)] for a class of the [errors] module. *)
Definition package_error (cls : string) (extra_info : pyobj) : exn :=
  mk_exn (ExceptionSubclass cls) (error_text cls extra_info).

Definition validate_environment (w : world) (self : nat) : outcome unit :=
  env_config ← litellm_validate_environment (model_value (heap w self));
  keys_in_environment ← getitem_key env_config "keys_in_environment";
  if negb (truthy keys_in_environment)
  then Raise (package_error "MissingEnvironmentVariables" env_config)
  else Ok tt.

Definition validate_model (w : world) (self : nat) : outcome unit :=
  supported ← litellm_supports_vision (model_value (heap w self));
  if negb (truthy supported)
  then Raise (package_error "NotAVisionModel"
                (PDict [("model", model_value (heap w self))]))
  else Ok tt.

Definition validate_access (w : world) (self : nat) : outcome unit :=
  valid ← litellm_check_valid_key (model_value (heap w self));
  if negb (truthy valid)
  then Raise (package_error "ModelAccessError"
                (PDict [("model", model_value (heap w self))]))
  else Ok tt.

(** [__init__] on the new object [self]: the base initialiser, then the
    three validations in the order they are written. *)
Definition __init__ (w : world) (self : nat) (model : option string)
    (kwargs : list (string * pyobj)) : world * outcome unit :=
  match BaseModel_init w self model kwargs with
  | (w', Raise e) => (w', Raise e)
  | (w', Ok _) =>
      (w', _ ← validate_environment w' self;
           _ ← validate_model w' self;
           validate_access w' self)
  end.

End litellmmodel_init.

(** ** More vocabulary of the statements *)

(** A run of assignments [obj.system_prompt = prompt], first to last. *)
Definition run_setters (CUSTOM_SYSTEM_PROMPT_WARNING : string) (w : world)
    (assignments : list (nat * string)) : world :=
  fold_left (fun w a => system_prompt_setter CUSTOM_SYSTEM_PROMPT_WARNING w a.1 a.2)
    assignments w.

(** The prompt of the last assignment to [self] in a run, if any. *)
Fixpoint last_assigned (self : nat) (assignments : list (nat * string))
  : option string :=
  match assignments with
  | [] => None
  | (obj, prompt) :: rest =>
      match last_assigned self rest with
      | Some later => Some later
      | None => if bool_decide (obj = self) then Some prompt else None
      end
  end.

(** [message["content"][0]["image_url"]["url"]]. *)
Definition image_url_of (message : pyobj) : outcome pyobj :=
  content ← getitem_key message "content";
  part ← getitem_0 content;
  image_url ← getitem_key part "image_url";
  getitem_key image_url "url".

(** The shape of a provider response that [completion] reads: the first
    choice's message with its content, and the usage block with the two
    token counts. *)
Definition response_fields (response : pyobj)
  : option (list (string * pyobj) * pyobj * pyobj * pyobj) :=
  match response with
  | PDict kvs =>
      match assoc "choices" kvs, assoc "usage" kvs with
      | Some (PList (PDict choice :: _)), Some (PDict usage) =>
          match assoc "message" choice with
          | Some (PDict message) =>
              content ← assoc "content" message;
              prompt_tokens ← assoc "prompt_tokens" usage;
              completion_tokens ← assoc "completion_tokens" usage;
              Some (message, content, prompt_tokens, completion_tokens)
          | _ => None
          end
      | _, _ => None
      end
  | _ => None
  end.

(** The call [completion] makes for the messages. *)
Definition call_of (w : world) (self : nat) (messages : list pyobj)
  : transport_call :=
  mk_call (inst_model (heap w self)) messages (inst_kwargs (heap w self)).

(** The state after that call. *)
Definition sent (w : world) (self : nat) (messages : list pyobj) : world :=
  mk_world (cls_system_prompt w) (heap w) (warnings w)
    (calls w ++ [call_of w self messages]).

(** Whether the environment oracle's answer passes [validate_environment],
    and whether a yes-or-no oracle's answer passes its validation. *)
Definition environment_ok (answer : outcome pyobj) : bool :=
  match answer with
  | Ok env_config =>
      match getitem_key env_config "keys_in_environment" with
      | Ok keys_in_environment => truthy keys_in_environment
      | Raise _ => false
      end
  | Raise _ => false
  end.
Definition answers_yes (answer : outcome pyobj) : bool :=
  match answer with
  | Ok v => truthy v
  | Raise _ => false
  end.

(** ** Concrete validators, for the examples *)

(** A base initialiser that stores the model and the keyword options. *)
Definition example_BaseModel_init (w : world) (self : nat)
    (model : option string) (kwargs : list (string * pyobj))
  : world * outcome unit :=
  (mk_world (cls_system_prompt w)
     (<[self := mk_instance model kwargs None]> (heap w))
     (warnings w) (calls w),
   Ok tt).

Definition example_error_text (cls : string) (extra_info : pyobj) : string :=
  cls +:+ ": " +:+ py_str extra_info.

(** Validators whose answers are chosen by the model name. *)
Definition example_validate_environment (model : pyobj) : outcome pyobj :=
  match model with
  | PStr "no-key" =>
      Ok (PDict [("keys_in_environment", PBool false);
                 ("missing_keys", PList [PStr "OPENAI_API_KEY"])])
  | _ => Ok (PDict [("keys_in_environment", PBool true);
                    ("missing_keys", PList [])])
  end.
Definition example_supports_vision (model : pyobj) : outcome pyobj :=
  match model with
  | PStr "no-key" | PStr "text-only" => Ok (PBool false)
  | _ => Ok (PBool true)
  end.
Definition example_check_valid_key (model : pyobj) : outcome pyobj :=
  match model with
  | PStr "no-key" | PStr "text-only" | PStr "bad-key" => Ok (PBool false)
  | _ => Ok (PBool true)
  end.

(** * Properties *)

(** ** Rendering of values *)

Example py_str_coords :
  py_str (PList [PInt 0; PInt 0; PInt 10; PInt 10]) = "[0, 0, 10, 10]".
Proof. reflexivity. Qed.

Example py_repr_nested :
  py_repr (PDict [("a", PList [PStr "x'y"; PInt (-3); PNone])])
  = "{'a': [" +:+ String dquote ("x'y" +:+ String dquote ", -3, None]}").
Proof. reflexivity. Qed.

(** ** Strings *)

Lemma app_cons (a : ascii) (s t : string) :
  String a s +:+ t = String a (s +:+ t).
Proof. reflexivity. Qed.

Lemma app_empty_r (s : string) : s +:+ "" = s.
Proof. induction s as [|a s IH]; [reflexivity|]. rewrite app_cons. by f_equal. Qed.

Lemma app_assoc_string (s t u : string) : (s +:+ t) +:+ u = s +:+ t +:+ u.
Proof.
  induction s as [|a s IH]; [reflexivity|].
  rewrite !app_cons. by f_equal.
Qed.

Lemma length_app_string (s t : string) :
  String.length (s +:+ t) = String.length s + String.length t.
Proof.
  induction s as [|a s IH]; [reflexivity|].
  rewrite app_cons. simpl. by rewrite IH.
Qed.

Lemma strip_prefix_Some (p s r : string) :
  strip_prefix p s = Some r <-> s = p +:+ r.
Proof.
  revert s. induction p as [|a p IH]; intros s; simpl.
  - split; [by intros [= ->] | by intros ->].
  - destruct s as [|b s].
    + split; [done | by rewrite app_cons].
    + rewrite app_cons. destruct (Ascii.eqb_spec a b) as [->|Hab].
      * rewrite IH. split; [by intros -> | by intros [= ->]].
      * split; [done | intros [= <- _]; done].
Qed.

Lemma strip_suffix_unfold (p s : string) :
  strip_suffix p s =
  if String.eqb s p then Some ""
  else match s with
       | String a s' => String a <$> strip_suffix p s'
       | EmptyString => None
       end.
Proof. by destruct s. Qed.

Lemma strip_suffix_Some (p s r : string) :
  strip_suffix p s = Some r <-> s = r +:+ p.
Proof.
  revert r. induction s as [|a s IH]; intros r; rewrite strip_suffix_unfold.
  - destruct (String.eqb_spec "" p) as [<-|Hp].
    + split; [by intros [= <-]|].
      destruct r; [done | by rewrite app_cons].
    + split; [done|]. intros Heq.
      destruct r; [by change ("" = p) in Heq | by rewrite app_cons in Heq].
  - destruct (String.eqb_spec (String a s) p) as [<-|Hp].
    + split; [by intros [= <-]|].
      intros Heq. f_equal.
      apply (f_equal String.length) in Heq.
      rewrite length_app_string in Heq.
      destruct r; [done | simpl in Heq; lia].
    + destruct (strip_suffix p s) as [r'|] eqn:Hs; simpl.
      * pose proof (proj1 (IH r') eq_refl) as ->. split.
        -- by intros [= <-].
        -- destruct r as [|b r]; [by intros Heq; change (String a (r' +:+ p) = p) in Heq|].
           rewrite app_cons. intros [= <- Heq].
           by apply IH in Heq as [= ->].
      * split; [done|].
        destruct r as [|b r]; [by intros Heq; change (String a s = p) in Heq|].
        rewrite app_cons. intros [= <- Heq].
        by apply IH in Heq.
Qed.

Lemma strip_prefix_app (a b s r : string) :
  strip_prefix (a +:+ b) s = Some r -> strip_prefix a s = Some (b +:+ r).
Proof.
  rewrite !strip_prefix_Some. intros ->. apply app_assoc_string.
Qed.

Lemma occurs_prefix (needle hay r : string) :
  strip_prefix needle hay = Some r -> occurs needle hay = true.
Proof. intros H. destruct hay; simpl; by rewrite H. Qed.

(** ** The fence patterns *)

Lemma fence_match_Some (p : fence_pattern) (text inner : string) :
  fence_match p text = Some inner
  <-> text = fence_open p +:+ inner +:+ fence_close p.
Proof.
  unfold fence_match. split.
  - destruct (strip_prefix (fence_open p) text) as [rest|] eqn:Hp; [|done].
    simpl. intros Hs. apply strip_prefix_Some in Hp as ->.
    by apply strip_suffix_Some in Hs as ->.
  - intros ->.
    assert (strip_prefix (fence_open p)
              (fence_open p +:+ inner +:+ fence_close p)
            = Some (inner +:+ fence_close p)) as ->
      by by apply strip_prefix_Some.
    simpl. by apply strip_suffix_Some.
Qed.

Lemma re_sub_group1_wrapped (p : fence_pattern) (inner : string) :
  re_sub_group1 p (fence_open p +:+ inner +:+ fence_close p) = inner.
Proof.
  unfold re_sub_group1.
  by rewrite (proj2 (fence_match_Some p _ inner) eq_refl).
Qed.

Lemma re_sub_group1_unwrapped (p : fence_pattern) (text : string) :
  is_wrapped p text = false -> re_sub_group1 p text = text.
Proof.
  unfold is_wrapped, re_sub_group1. by destruct (fence_match p text).
Qed.

(** Both patterns open with three backticks. *)
Lemma wrapped_has_marker (p : fence_pattern) (text : string) :
  p = MATCH_MARKDOWN_BLOCKS \/ p = MATCH_CODE_BLOCKS ->
  is_wrapped p text = true -> occurs "```" text = true.
Proof.
  unfold is_wrapped, fence_match. intros Hp Hw.
  destruct (strip_prefix (fence_open p) text) as [rest|] eqn:Hpre; [|done].
  destruct Hp as [-> | ->].
  - apply (strip_prefix_app "```" ("markdown" +:+ nl)) in Hpre.
    by eapply occurs_prefix.
  - apply (strip_prefix_app "```" nl) in Hpre.
    by eapply occurs_prefix.
Qed.

Lemma unmarked_not_wrapped (p : fence_pattern) (text : string) :
  p = MATCH_MARKDOWN_BLOCKS \/ p = MATCH_CODE_BLOCKS ->
  occurs "```" text = false -> is_wrapped p text = false.
Proof.
  intros Hp Hno. destruct (is_wrapped p text) eqn:Hw; [|done].
  apply (wrapped_has_marker p text Hp) in Hw. congruence.
Qed.

(** ** [format_markdown] *)

Lemma format_markdown_no_boxes (text : string) (bounding_boxes : pyobj) :
  truthy bounding_boxes = false ->
  format_markdown text bounding_boxes
  = Ok (re_sub_group1 MATCH_CODE_BLOCKS
          (re_sub_group1 MATCH_MARKDOWN_BLOCKS text)).
Proof. unfold format_markdown. by intros ->. Qed.

(** C4: with no boxes the result is the markdown pattern's substitution
    followed, on its result, by the code pattern's substitution. Each
    substitution returns what a wrapped text has between its opening fence
    line and its closing fence, unchanged: a text in a markdown fence loses
    that fence, a text in a generic fence passes the first substitution as
    it is and loses its fence in the second, and the markdown-fenced title
    comes out as the bare title. *)
Theorem format_markdown_unwraps_in_order :
  (forall text : string,
     format_markdown text PNone
     = Ok (re_sub_group1 MATCH_CODE_BLOCKS
             (re_sub_group1 MATCH_MARKDOWN_BLOCKS text)))
  /\ (forall inner : string,
        re_sub_group1 MATCH_MARKDOWN_BLOCKS
          ("```markdown" +:+ nl +:+ inner +:+ nl +:+ "```") = inner)
  /\ (forall inner : string,
        re_sub_group1 MATCH_CODE_BLOCKS
          ("```" +:+ nl +:+ inner +:+ nl +:+ "```") = inner)
  /\ (forall inner : string,
        format_markdown ("```markdown" +:+ nl +:+ inner +:+ nl +:+ "```") PNone
        = Ok (re_sub_group1 MATCH_CODE_BLOCKS inner))
  /\ (forall inner : string,
        format_markdown ("```" +:+ nl +:+ inner +:+ nl +:+ "```") PNone
        = Ok inner)
  /\ format_markdown ("```markdown" +:+ nl +:+ "# Title" +:+ nl +:+ "```") PNone
     = Ok "# Title".
Proof.
  assert (Hmd : forall inner,
             re_sub_group1 MATCH_MARKDOWN_BLOCKS
               ("```markdown" +:+ nl +:+ inner +:+ nl +:+ "```") = inner)
    by (intros inner; apply (re_sub_group1_wrapped MATCH_MARKDOWN_BLOCKS)).
  assert (Hcode : forall inner,
             re_sub_group1 MATCH_CODE_BLOCKS
               ("```" +:+ nl +:+ inner +:+ nl +:+ "```") = inner)
    by (intros inner; apply (re_sub_group1_wrapped MATCH_CODE_BLOCKS)).
  repeat split; try done.
  - intros inner. rewrite format_markdown_no_boxes by done. by rewrite Hmd.
  - intros inner. rewrite format_markdown_no_boxes by done.
    by rewrite <- (Hcode inner) at 2.
Qed.

Lemma box_markdown_fields (box : pyobj) (fields : pyobj * pyobj) :
  box_fields box = Some fields -> box_markdown box = Ok (box_block fields).
Proof.
  destruct box as [| | | | |kvs]; try done. unfold box_markdown; simpl.
  destruct (assoc "image" kvs) as [image|]; [|done].
  destruct (assoc "bounding_box" kvs) as [bounding_box|]; [|done].
  intros [= <-]. simpl. unfold box_block, image_reference; simpl.
  by rewrite !app_assoc_string.
Qed.

Lemma comprehension_fields (boxes : list pyobj) (fields : list (pyobj * pyobj)) :
  Forall2 (fun box f => box_fields box = Some f) boxes fields ->
  comprehension box_markdown boxes = Ok (box_block <$> fields).
Proof.
  induction 1 as [|box f boxes fields Hf _ IH]; [done|].
  simpl. rewrite (box_markdown_fields _ _ Hf). simpl. by rewrite IH.
Qed.

Lemma format_markdown_with_boxes (text : string) (boxes : list pyobj)
    (fields : list (pyobj * pyobj)) :
  boxes <> [] ->
  Forall2 (fun box f => box_fields box = Some f) boxes fields ->
  format_markdown text (PList boxes)
  = Ok (re_sub_group1 MATCH_CODE_BLOCKS (re_sub_group1 MATCH_MARKDOWN_BLOCKS text)
        +:+ blank_line +:+ String.concat blank_line (box_block <$> fields)).
Proof.
  intros Hne Hfields. unfold format_markdown.
  destruct boxes as [|box boxes]; [done|].
  pose proof (comprehension_fields _ _ Hfields) as Hblocks.
  cbn [truthy py_iter]. unfold mbind, outcome_bind. cbv beta iota.
  rewrite Hblocks. unfold blank_line. by rewrite !app_assoc_string.
Qed.

(** C5, as stated, fails: the coordinate list of the example is rendered
    by [str] with a space after each comma, so the result is not the text
    the claim gives. *)
Lemma format_markdown_example_not_compact :
  format_markdown "body" (PList [example_box])
  <> Ok ("body" +:+ nl +:+ nl +:+ "![Image](data:image/png;base64,AAAA)"
         +:+ nl +:+ nl +:+ "Bounding Box: [0,0,10,10]").
Proof. vm_compute. intros [=]. Qed.

(** C5, amended: for the content [body] and the one box of the example the
    result is [body], a blank line, the image reference, a blank line and
    [Bounding Box: [0, 0, 10, 10]]; and whenever the box list is not empty
    and every box is a dict with the keys [image] and [bounding_box], the
    result is the primary content followed, after a blank line, by the box
    blocks with a blank line between them, each block an image reference
    built from the box's image data, a blank line and a coordinate line. *)
Theorem format_markdown_appends_boxes :
  format_markdown "body" (PList [example_box])
  = Ok ("body" +:+ nl +:+ nl +:+ "![Image](data:image/png;base64,AAAA)"
        +:+ nl +:+ nl +:+ "Bounding Box: [0, 0, 10, 10]")
  /\ forall (text body : string) (boxes : list pyobj)
            (fields : list (pyobj * pyobj)),
       format_markdown text PNone = Ok body ->
       boxes <> [] ->
       Forall2 (fun box f => box_fields box = Some f) boxes fields ->
       format_markdown text (PList boxes)
       = Ok (body +:+ blank_line
             +:+ String.concat blank_line (box_block <$> fields)).
Proof.
  split; [by vm_compute|].
  intros text body boxes fields Hbody Hne Hfields.
  rewrite format_markdown_no_boxes in Hbody by done.
  injection Hbody as <-.
  by apply format_markdown_with_boxes.
Qed.

Lemma format_markdown_appends_boxes_witness :
  format_markdown "body" PNone = Ok "body"
  /\ [example_box; example_box] <> []
  /\ format_markdown "body" (PList [example_box; example_box])
     = Ok ("body" +:+ blank_line
           +:+ String.concat blank_line
                 (box_block <$> [(PStr "AAAA", PList (PInt <$> [0; 0; 10; 10]%Z));
                                 (PStr "AAAA", PList (PInt <$> [0; 0; 10; 10]%Z))])).
Proof.
  split; [reflexivity|]. split; [discriminate|].
  apply (proj2 format_markdown_appends_boxes "body" "body");
    [reflexivity | discriminate | repeat constructor].
Defined.

(** C6: on a text that neither pattern matches, formatting the result of
    formatting (with an empty box list both times) gives the result of
    formatting once. *)
Theorem format_markdown_idempotent_unwrapped (x : string) :
  is_wrapped MATCH_MARKDOWN_BLOCKS x = false ->
  is_wrapped MATCH_CODE_BLOCKS x = false ->
  (once ← format_markdown x (PList []); format_markdown once (PList []))
  = format_markdown x (PList []).
Proof.
  intros Hmd Hcode.
  assert (Hx : format_markdown x (PList []) = Ok x).
  { rewrite format_markdown_no_boxes by done.
    by rewrite (re_sub_group1_unwrapped _ _ Hmd), (re_sub_group1_unwrapped _ _ Hcode). }
  rewrite Hx. exact Hx.
Qed.

Lemma format_markdown_idempotent_unwrapped_witness :
  (once ← format_markdown "# Title" (PList []); format_markdown once (PList []))
  = format_markdown "# Title" (PList []).
Proof. apply format_markdown_idempotent_unwrapped; reflexivity. Defined.

(** On a text in two generic fences the second pass removes a second
    layer, so the restriction of C6 to unwrapped texts is needed. *)
Example format_markdown_twice_on_two_layers :
  let x := "```" +:+ nl +:+ "```" +:+ nl +:+ "x" +:+ nl +:+ "```" +:+ nl +:+ "```" in
  format_markdown x (PList []) = Ok ("```" +:+ nl +:+ "x" +:+ nl +:+ "```")
  /\ (once ← format_markdown x (PList []); format_markdown once (PList []))
     = Ok "x".
Proof. by vm_compute. Qed.

Lemma well_formed_boxes_fields (boxes : list pyobj) :
  well_formed_boxes boxes = true ->
  exists fields, Forall2 (fun box f => box_fields box = Some f) boxes fields.
Proof.
  induction boxes as [|box boxes IH]; simpl.
  - intros _. by exists [].
  - destruct (box_fields box) as [f|] eqn:Hf; [|done]. simpl.
    intros [fields Hfields]%IH. exists (f :: fields). by constructor.
Qed.

(** C7: [format_markdown] returns a result, with no exception, for every
    text when the box list is [None], empty, or a list of dicts that have
    the two keys; as a function it gives one result per input; and on a
    text with no run of three backticks each of the two substitutions
    returns the text itself, and so does [format_markdown]. *)
Theorem format_markdown_total :
  (forall text : string, exists result, format_markdown text PNone = Ok result)
  /\ (forall text : string,
        exists result, format_markdown text (PList []) = Ok result)
  /\ (forall (text : string) (boxes : list pyobj),
        well_formed_boxes boxes = true ->
        exists result, format_markdown text (PList boxes) = Ok result)
  /\ (forall text : string,
        occurs "```" text = false ->
        re_sub_group1 MATCH_MARKDOWN_BLOCKS text = text
        /\ re_sub_group1 MATCH_CODE_BLOCKS text = text
        /\ format_markdown text PNone = Ok text
        /\ format_markdown text (PList []) = Ok text).
Proof.
  split; [by eexists|]. split; [by eexists|]. split.
  - intros text boxes Hwf.
    destruct boxes as [|box boxes]; [by eexists|].
    destruct (well_formed_boxes_fields _ Hwf) as [fields Hfields].
    eexists. by apply format_markdown_with_boxes.
  - intros text Hno.
    pose proof (unmarked_not_wrapped MATCH_MARKDOWN_BLOCKS text (or_introl eq_refl) Hno)
      as Hmd%re_sub_group1_unwrapped.
    pose proof (unmarked_not_wrapped MATCH_CODE_BLOCKS text (or_intror eq_refl) Hno)
      as Hcode%re_sub_group1_unwrapped.
    rewrite !format_markdown_no_boxes by done.
    by rewrite Hmd, Hcode.
Qed.

Lemma format_markdown_total_witness :
  (exists result,
     format_markdown "text" (PList [example_box; example_box]) = Ok result)
  /\ format_markdown "# Title" PNone = Ok "# Title".
Proof.
  split.
  - apply (proj1 (proj2 (proj2 format_markdown_total))). reflexivity.
  - apply (proj2 (proj2 (proj2 format_markdown_total)) "# Title"). reflexivity.
Defined.

(** A box without the key [bounding_box] makes the f-string raise
    [KeyError]: the results above are for texts, not for every box list. *)
Example format_markdown_box_without_coordinates :
  format_markdown "body" (PList [PDict [("image", PStr "AAAA")]])
  = Raise (mk_exn KeyError "'bounding_box'").
Proof. reflexivity. Qed.

(** ** [litellmmodel] *)

Lemma occurs_app (needle before after : string) :
  occurs needle (before +:+ needle +:+ after) = true.
Proof.
  induction before as [|c before IH].
  - apply (occurs_prefix _ _ after). by apply strip_prefix_Some.
  - rewrite app_cons. simpl.
    by destruct (strip_prefix needle (String c (before +:+ needle +:+ after))).
Qed.

Lemma nonempty_truthy (s : string) : truthy (PStr s) = true <-> s <> "".
Proof.
  simpl. destruct (String.eqb_spec s ""); simpl; split; congruence.
Qed.

(** Every exception of a subscript or of [.get] is an [Exception]. *)
Lemma getitem_key_Exception (v : pyobj) (k : string) (err : exn) :
  getitem_key v k = Raise err -> is_Exception err = true.
Proof.
  destruct v as [| | | | |kvs]; simpl; try by intros [= <-].
  destruct (assoc k kvs); [done | by intros [= <-]].
Qed.

Lemma getitem_0_Exception (v : pyobj) (err : exn) :
  getitem_0 v = Raise err -> is_Exception err = true.
Proof.
  destruct v as [| | |s|xs|]; simpl; try by intros [= <-].
  - destruct s; [by intros [= <-] | done].
  - destruct xs; [by intros [= <-] | done].
Qed.

Lemma get_default_Exception (v : pyobj) (k : string) (dflt : pyobj) (err : exn) :
  get_default v k dflt = Raise err -> is_Exception err = true.
Proof. destruct v; simpl; by intros [= <-]. Qed.

Lemma bind_Raise {A B : Type} (m : outcome A) (k : A -> outcome B) (err : exn) :
  (x ← m; k x) = Raise err ->
  m = Raise err \/ exists a, m = Ok a /\ k a = Raise err.
Proof.
  destruct m as [a|e]; unfold mbind, outcome_bind.
  - intros H. right. exists a. split; [reflexivity | exact H].
  - intros [= ->]. by left.
Qed.

Lemma read_response_raises_Exception (response : pyobj) (err : exn) :
  read_response response = Raise err -> is_Exception err = true.
Proof.
  unfold read_response. intros H.
  repeat (apply bind_Raise in H as [H | (? & _ & H)];
          [by eauto using getitem_key_Exception, getitem_0_Exception,
                 get_default_Exception |]).
  done.
Qed.

Lemma continuity_text_embeds (prior_page : string) :
  occurs (triple_dquote +:+ prior_page +:+ triple_dquote)
    (continuity_text prior_page) = true.
Proof.
  unfold continuity_text.
  rewrite <- (app_empty_r (continuity_preamble +:+ _)), app_assoc_string.
  apply occurs_app.
Qed.

Section litellmmodel_properties.

Variable CUSTOM_SYSTEM_PROMPT_WARNING : string.
Variables COMPLETION_ERROR_before COMPLETION_ERROR_after : string.
Variable encode_image_to_base64 : string -> outcome string.
Variable acompletion : list transport_call -> transport_call -> outcome pyobj.

Local Abbreviation prepare := (_prepare_messages encode_image_to_base64).
Local Abbreviation complete :=
  (completion COMPLETION_ERROR_before COMPLETION_ERROR_after
     encode_image_to_base64 acompletion).
Local Abbreviation set_prompt := (system_prompt_setter CUSTOM_SYSTEM_PROMPT_WARNING).
Local Abbreviation wrap :=
  (COMPLETION_ERROR_format COMPLETION_ERROR_before COMPLETION_ERROR_after).

(** What [_prepare_messages] returns when the encoder returns. *)
Lemma prepare_messages_Ok (w : world) (self : nat) (image_path : string)
    (maintain_format : bool) (prior_page : string) (messages : list pyobj) :
  prepare w self image_path maintain_format prior_page = Ok messages <->
  exists base64_image,
    encode_image_to_base64 image_path = Ok base64_image
    /\ messages
       = system_message (system_prompt w self)
         :: (if maintain_format && truthy (PStr prior_page)
             then [continuity_message prior_page] else [])
         ++ [user_message base64_image].
Proof.
  unfold _prepare_messages, system_prompt.
  destruct (encode_image_to_base64 image_path) as [b64|e]; simpl.
  - split.
    + intros [= <-]. exists b64. split; [done|].
      by destruct (maintain_format && _).
    + intros (? & [= <-] & ->). by destruct (maintain_format && _).
  - split; [done | by intros (? & ? & _)].
Qed.

Lemma prepare_messages_Raise (w : world) (self : nat) (image_path : string)
    (maintain_format : bool) (prior_page : string) (e : exn) :
  prepare w self image_path maintain_format prior_page = Raise e <->
  encode_image_to_base64 image_path = Raise e.
Proof.
  unfold _prepare_messages.
  destruct (encode_image_to_base64 image_path); simpl; split; congruence.
Qed.

Lemma prepare_messages_entries (w : world) (self : nat) (image_path : string)
    (maintain_format : bool) (prior_page : string) (messages : list pyobj) :
  prepare w self image_path maintain_format prior_page = Ok messages ->
  exists base64_image,
    encode_image_to_base64 image_path = Ok base64_image
    /\ (exists first,
          head messages = Some first
          /\ getitem_key first "role" = Ok (PStr "system")
          /\ getitem_key first "content"
             = Ok (PStr (default (cls_system_prompt w)
                           (inst_system_prompt (heap w self)))))
    /\ (exists final part,
          list.last messages = Some final
          /\ getitem_key final "role" = Ok (PStr "user")
          /\ getitem_key final "content" = Ok (PList [part])
          /\ getitem_key part "type" = Ok (PStr "image_url")
          /\ image_url_of final
             = Ok (PStr ("data:image/png;base64," +:+ base64_image)))
    /\ (maintain_format = true -> prior_page <> "" ->
        exists second,
          messages !! 1 = Some second
          /\ getitem_key second "role" = Ok (PStr "system")
          /\ getitem_key second "content"
             = Ok (PStr ("Markdown must maintain consistent formatting with the following page: "
                       +:+ String "010"%char (String "010"%char (String " "%char
                           (String "034"%char (String "034"%char (String "034"%char
                              (prior_page
                               +:+ String "034"%char (String "034"%char
                                     (String "034"%char EmptyString)))))))))))
    /\ (~ (maintain_format = true /\ prior_page <> "") ->
        length messages = 2 /\ count_role "system" messages = 1).
Proof.
  intros (b64 & Henc & ->)%prepare_messages_Ok. exists b64.
  split; [done|]. split.
  { eexists. by repeat split. }
  split.
  { do 2 eexists. split; [by rewrite app_comm_cons, last_snoc|].
    by repeat split. }
  pose proof (nonempty_truthy prior_page) as Hne.
  destruct maintain_format, (truthy (PStr prior_page)); simpl; split;
    try (intros _ _; eexists; by repeat split);
    try (intros ? Hp; by apply Hne in Hp);
    try (intros; done);
    try (intros Hn; exfalso; apply Hn; split; [done | by apply Hne]).
Qed.

(** C1: a message sequence that [_prepare_messages] returns starts with
    the system message of the active prompt, ends with the user message
    that carries the encoded page image, has one user entry, has two
    system entries exactly when [maintain_format] is true and
    [prior_page] is not empty (the second is then the continuity
    message) and one otherwise, and has no entry besides these. Read
    through their keys: the first entry has the role [system] and, as its
    content, the prompt the object observes (its own entry, or else the
    class attribute); the last entry has the role [user] and one content
    part, of type [image_url], whose url is the [data:image/png;base64,]
    prefix followed by the encoder's output; the second system entry has
    the instruction sentence, two newlines, a space and the prior page
    between two runs of three double quotes as its content. *)
Theorem prepare_messages_shape (w : world) (self : nat) (image_path : string)
    (maintain_format : bool) (prior_page : string) (messages : list pyobj) :
  prepare w self image_path maintain_format prior_page = Ok messages ->
  exists base64_image,
    encode_image_to_base64 image_path = Ok base64_image
    /\ head messages = Some (system_message (system_prompt w self))
    /\ has_role "system" (system_message (system_prompt w self)) = true
    /\ list.last messages = Some (user_message base64_image)
    /\ has_role "user" (user_message base64_image) = true
    /\ count_role "user" messages = 1
    /\ (count_role "system" messages = 2
        <-> maintain_format = true /\ prior_page <> "")
    /\ (count_role "system" messages = 1
        <-> ~ (maintain_format = true /\ prior_page <> ""))
    /\ (maintain_format = true -> prior_page <> "" ->
        messages !! 1 = Some (continuity_message prior_page))
    /\ length messages = count_role "system" messages + 1
    /\ (exists first,
          head messages = Some first
          /\ getitem_key first "role" = Ok (PStr "system")
          /\ getitem_key first "content"
             = Ok (PStr (default (cls_system_prompt w)
                           (inst_system_prompt (heap w self)))))
    /\ (exists final part,
          list.last messages = Some final
          /\ getitem_key final "role" = Ok (PStr "user")
          /\ getitem_key final "content" = Ok (PList [part])
          /\ getitem_key part "type" = Ok (PStr "image_url")
          /\ image_url_of final
             = Ok (PStr ("data:image/png;base64," +:+ base64_image)))
    /\ (maintain_format = true -> prior_page <> "" ->
        exists second,
          messages !! 1 = Some second
          /\ getitem_key second "role" = Ok (PStr "system")
          /\ getitem_key second "content"
             = Ok (PStr ("Markdown must maintain consistent formatting with the following page: "
                       +:+ String "010"%char (String "010"%char (String " "%char
                           (String "034"%char (String "034"%char (String "034"%char
                              (prior_page
                               +:+ String "034"%char (String "034"%char
                                     (String "034"%char EmptyString))))))))))).
Proof.
  intros Hprep.
  destruct (prepare_messages_entries _ _ _ _ _ _ Hprep)
    as (b64' & Henc' & Hfirst & Hlast & Hsecond & _).
  apply prepare_messages_Ok in Hprep as (b64 & Henc & ->). exists b64.
  assert (b64' = b64) as -> by congruence.
  split; [done|]. split; [done|]. split; [done|].
  pose proof (nonempty_truthy prior_page) as Hne.
  destruct maintain_format, (truthy (PStr prior_page)); simpl;
    (split; [done|]); (split; [done|]); (split; [done|]);
    (split; [unfold count_role; simpl; intuition (try done; try lia)|]);
    (split; [unfold count_role; simpl; intuition (try done; try lia)|]);
    (split; [unfold count_role; simpl; intuition (try done; try lia)|]);
    (split; [done|]); (split; [exact Hfirst|]); (split; [exact Hlast|]);
    exact Hsecond.
Qed.

(** C2: when [maintain_format] is true and [prior_page] is not empty, the
    second message is the continuity message, whose content is the
    instruction text followed by [prior_page], unchanged, between two
    runs of three double quotes; when [prior_page] is empty the messages
    are the system message and the user message and nothing else. Read
    through its keys, the second message has the role [system] and a
    content that is, character for character, the instruction sentence,
    two newlines, a space, three double-quote characters (code 34), the
    prior page and three double-quote characters; and with an empty prior
    page the request has two entries, one of them of role [system]. *)
Theorem continuity_message_verbatim (w : world) (self : nat)
    (image_path : string) (maintain_format : bool) (prior_page : string)
    (messages : list pyobj) :
  prepare w self image_path maintain_format prior_page = Ok messages ->
  (maintain_format = true -> prior_page <> "" ->
   messages !! 1 = Some (continuity_message prior_page)
   /\ getitem_key (continuity_message prior_page) "role" = Ok (PStr "system")
   /\ getitem_key (continuity_message prior_page) "content"
      = Ok (PStr ("Markdown must maintain consistent formatting with the following page: "
                  +:+ nl +:+ nl +:+ " "
                  +:+ triple_dquote +:+ prior_page +:+ triple_dquote))
   /\ occurs (triple_dquote +:+ prior_page +:+ triple_dquote)
        (continuity_text prior_page) = true)
  /\ (prior_page = "" ->
      exists base64_image,
        messages = [system_message (system_prompt w self);
                    user_message base64_image])
  /\ (maintain_format = true -> prior_page <> "" ->
      exists second,
        messages !! 1 = Some second
        /\ getitem_key second "role" = Ok (PStr "system")
        /\ getitem_key second "content"
           = Ok (PStr ("Markdown must maintain consistent formatting with the following page: "
                       +:+ String "010"%char (String "010"%char (String " "%char
                           (String "034"%char (String "034"%char (String "034"%char
                              (prior_page
                               +:+ String "034"%char (String "034"%char
                                     (String "034"%char EmptyString))))))))))
        /\ occurs (String "034"%char (String "034"%char (String "034"%char
                      (prior_page
                       +:+ String "034"%char (String "034"%char
                             (String "034"%char EmptyString))))))
             (match getitem_key second "content" with
              | Ok (PStr text) => text
              | _ => EmptyString
              end) = true)
  /\ (prior_page = "" ->
      length messages = 2
      /\ count_role "system" messages = 1
      /\ count_role "user" messages = 1).
Proof.
  intros Hprep.
  destruct (prepare_messages_entries _ _ _ _ _ _ Hprep)
    as (_ & _ & _ & _ & Hsecond & Hnone).
  apply prepare_messages_Ok in Hprep as (b64 & Henc & ->).
  split; [|split; [|split]].
  - intros -> Hne%nonempty_truthy. rewrite Hne. simpl.
    split; [done|]. split; [done|]. split; [done|].
    apply continuity_text_embeds.
  - intros ->. exists b64. by rewrite andb_false_r.
  - intros Hmf Hne. destruct (Hsecond Hmf Hne) as (second & H1 & Hrole & Hcontent).
    exists second. split; [done|]. split; [done|]. split; [done|].
    rewrite Hcontent. apply (continuity_text_embeds prior_page).
  - intros ->. rewrite andb_false_r. by repeat split.
Qed.

(** What the [try] body does when no keyword repeats. *)
Lemma send_and_read_call (w : world) (self : nat) (messages : list pyobj) :
  duplicate_keyword (inst_kwargs (heap w self)) = None ->
  let call := mk_call (inst_model (heap w self)) messages
                (inst_kwargs (heap w self)) in
  send_and_read acompletion w self messages
  = (mk_world (cls_system_prompt w) (heap w) (warnings w) (calls w ++ [call]),
     response ← acompletion (calls w) call; read_response response).
Proof. unfold send_and_read. by intros ->. Qed.

(** C3: once the messages are built, an [Exception] raised by the
    transport, an exception raised while the response is read, and the
    [TypeError] of a repeated keyword each leave [completion] as one
    [Exception] whose text is the completion error template with the
    text of the cause in its field; the transport has then been called
    once (not at all for the repeated keyword). *)
Theorem completion_wraps_failures (w : world) (self : nat)
    (image_path : string) (maintain_format : bool) (prior_page : string)
    (messages : list pyobj) :
  prepare w self image_path maintain_format prior_page = Ok messages ->
  let this := heap w self in
  let call := mk_call (inst_model this) messages (inst_kwargs this) in
  let sent := mk_world (cls_system_prompt w) (heap w) (warnings w)
                (calls w ++ [call]) in
  (forall err,
     duplicate_keyword (inst_kwargs this) = None ->
     acompletion (calls w) call = Raise err ->
     is_Exception err = true ->
     complete w self image_path maintain_format prior_page
     = (sent, Raise (mk_exn PlainException (wrap err))))
  /\ (forall response err,
        duplicate_keyword (inst_kwargs this) = None ->
        acompletion (calls w) call = Ok response ->
        read_response response = Raise err ->
        complete w self image_path maintain_format prior_page
        = (sent, Raise (mk_exn PlainException (wrap err))))
  /\ (forall k,
        duplicate_keyword (inst_kwargs this) = Some k ->
        exists err,
          exn_cls err = TypeError
          /\ complete w self image_path maintain_format prior_page
             = (w, Raise (mk_exn PlainException (wrap err))))
  /\ (forall err,
        wrap err
        = COMPLETION_ERROR_before +:+ exn_text err +:+ COMPLETION_ERROR_after
        /\ occurs (exn_text err) (wrap err) = true).
Proof.
  intros Hprep this call sent. unfold completion. rewrite Hprep.
  split; [|split; [|split]].
  - intros err Hdup Hsend Herr.
    rewrite send_and_read_call by done. fold this call sent.
    rewrite Hsend. simpl. by rewrite Herr.
  - intros response err Hdup Hsend Hread.
    rewrite send_and_read_call by done. fold this call sent.
    rewrite Hsend. simpl. rewrite Hread.
    by rewrite (read_response_raises_Exception _ _ Hread).
  - intros k Hdup. eexists. split; [|unfold send_and_read; fold this].
    2: { rewrite Hdup. reflexivity. }
    done.
  - intros err. split; [done|]. apply occurs_app.
Qed.

(** C8: an exception of the image encoder leaves [_prepare_messages] and
    then [completion] as it is, whatever its class: it is not put into
    the completion error template, and the state is the one before the
    call, so no transport call has been made. *)
Theorem encoding_error_propagates (w : world) (self : nat)
    (image_path : string) (maintain_format : bool) (prior_page : string)
    (e : exn) :
  encode_image_to_base64 image_path = Raise e ->
  prepare w self image_path maintain_format prior_page = Raise e
  /\ complete w self image_path maintain_format prior_page = (w, Raise e)
  /\ calls (complete w self image_path maintain_format prior_page).1 = calls w.
Proof.
  intros Hprep%(prepare_messages_Raise w self image_path maintain_format prior_page).
  unfold completion. by rewrite Hprep.
Qed.

(** C9: the setter returns (it raises nothing), has issued one more
    warning, built from the custom-prompt warning text and the default
    prompt, and has left the other state as it was; afterwards the
    [system_prompt] property of the object gives the new prompt, and
    [_prepare_messages] on the object either returns messages that start
    with the system message of the new prompt or raises what the encoder
    raised. The first of the returned messages has, under its keys, the
    role [system] and the new prompt as its content, and the new prompt is
    the object's own entry. That the setter returns is under a warnings
    filter of the host that does not turn the issued warning into an
    exception. *)
Theorem setter_warns_and_overrides (w : world) (self : nat) (prompt : string) :
  let w' := set_prompt w self prompt in
  warnings w'
  = warnings w ++ [CUSTOM_SYSTEM_PROMPT_WARNING
                   +:+ ". Default prompt for zerox is:" +:+ nl +:+ " "
                   +:+ DEFAULT_SYSTEM_PROMPT]
  /\ calls w' = calls w
  /\ system_prompt w' self = prompt
  /\ inst_system_prompt (heap w' self) = Some prompt
  /\ forall (image_path : string) (maintain_format : bool) (prior_page : string),
       match prepare w' self image_path maintain_format prior_page with
       | Ok messages =>
           head messages = Some (system_message prompt)
           /\ (exists base64_image,
                 encode_image_to_base64 image_path = Ok base64_image)
           /\ exists first,
                head messages = Some first
                /\ getitem_key first "role" = Ok (PStr "system")
                /\ getitem_key first "content" = Ok (PStr prompt)
       | Raise e => encode_image_to_base64 image_path = Raise e
       end.
Proof.
  simpl. split; [done|]. split; [done|].
  assert (Hattr : inst_system_prompt (heap (set_prompt w self prompt) self)
                  = Some prompt).
  { unfold system_prompt_setter. simpl. by rewrite fn_lookup_insert. }
  assert (Hget : system_prompt (set_prompt w self prompt) self = prompt).
  { unfold system_prompt, get_system_prompt_attr. by rewrite Hattr. }
  split; [exact Hget|]. split; [exact Hattr|].
  intros image_path maintain_format prior_page.
  destruct (prepare _ self image_path maintain_format prior_page)
    as [messages|e] eqn:Hprep.
  - destruct (prepare_messages_entries _ _ _ _ _ _ Hprep)
      as (_ & _ & (first & Hhead & Hrole & Hcontent) & _).
    rewrite Hattr in Hcontent. simpl in Hcontent.
    apply prepare_messages_Ok in Hprep as (b64 & Henc & ->).
    rewrite Hget in *. split; [done|]. split; [by exists b64|].
    exists first. split; [exact Hhead|]. split; [exact Hrole | exact Hcontent].
  - by apply prepare_messages_Raise in Hprep.
Qed.

(** C10: the setter on one object leaves the class attribute, every other
    object, the prompt every other object observes and the messages built
    on every other object as they were; the new prompt is stored in the
    object itself, where it shadows the class attribute. *)
Theorem setter_is_per_instance (w : world) (self other : nat) (prompt : string) :
  other <> self ->
  let w' := set_prompt w self prompt in
  cls_system_prompt w' = cls_system_prompt w
  /\ inst_system_prompt (heap w' self) = Some prompt
  /\ heap w' other = heap w other
  /\ system_prompt w' other = system_prompt w other
  /\ (inst_system_prompt (heap w other) = None ->
      system_prompt w' other = cls_system_prompt w)
  /\ forall (image_path : string) (maintain_format : bool) (prior_page : string),
       prepare w' other image_path maintain_format prior_page
       = prepare w other image_path maintain_format prior_page.
Proof.
  intros Hne. simpl.
  assert (Hheap : heap (set_prompt w self prompt) other = heap w other).
  { unfold system_prompt_setter. simpl. by rewrite fn_lookup_insert_ne. }
  assert (Hget : system_prompt (set_prompt w self prompt) other
                 = system_prompt w other).
  { unfold system_prompt, get_system_prompt_attr. by rewrite Hheap. }
  split; [done|]. split.
  { unfold system_prompt_setter. simpl. by rewrite fn_lookup_insert. }
  split; [exact Hheap|]. split; [exact Hget|]. split.
  - intros Hnone. rewrite Hget.
    unfold system_prompt, get_system_prompt_attr. by rewrite Hnone.
  - intros image_path maintain_format prior_page.
    unfold _prepare_messages. fold (system_prompt (set_prompt w self prompt) other).
    fold (system_prompt w other). by rewrite Hget.
Qed.

End litellmmodel_properties.

(** ** The model on concrete collaborators *)

Lemma prepare_messages_shape_witness :
  exists base64_image,
    example_encoder "page2.png" = Ok base64_image
    /\ head example_messages = Some (system_message (system_prompt initial_world 0))
    /\ has_role "system" (system_message (system_prompt initial_world 0)) = true
    /\ list.last example_messages = Some (user_message base64_image)
    /\ has_role "user" (user_message base64_image) = true
    /\ count_role "user" example_messages = 1
    /\ (count_role "system" example_messages = 2 <-> true = true /\ "# Page 1" <> "")
    /\ (count_role "system" example_messages = 1 <-> ~ (true = true /\ "# Page 1" <> ""))
    /\ (true = true -> "# Page 1" <> "" ->
        example_messages !! 1 = Some (continuity_message "# Page 1"))
    /\ length example_messages = count_role "system" example_messages + 1
    /\ (exists first,
          head example_messages = Some first
          /\ getitem_key first "role" = Ok (PStr "system")
          /\ getitem_key first "content"
             = Ok (PStr (default (cls_system_prompt initial_world)
                           (inst_system_prompt (heap initial_world 0)))))
    /\ (exists final part,
          list.last example_messages = Some final
          /\ getitem_key final "role" = Ok (PStr "user")
          /\ getitem_key final "content" = Ok (PList [part])
          /\ getitem_key part "type" = Ok (PStr "image_url")
          /\ image_url_of final
             = Ok (PStr ("data:image/png;base64," +:+ base64_image)))
    /\ (true = true -> "# Page 1" <> "" ->
        exists second,
          example_messages !! 1 = Some second
          /\ getitem_key second "role" = Ok (PStr "system")
          /\ getitem_key second "content"
             = Ok (PStr ("Markdown must maintain consistent formatting with the following page: "
                       +:+ String "010"%char (String "010"%char (String " "%char
                           (String "034"%char (String "034"%char (String "034"%char
                              ("# Page 1"
                               +:+ String "034"%char (String "034"%char
                                     (String "034"%char EmptyString))))))))))).
Proof.
  apply (prepare_messages_shape example_encoder initial_world 0 "page2.png"
           true "# Page 1" example_messages).
  reflexivity.
Defined.

Lemma continuity_message_verbatim_witness :
  (example_messages !! 1 = Some (continuity_message "# Page 1")
   /\ getitem_key (continuity_message "# Page 1") "role" = Ok (PStr "system")
   /\ getitem_key (continuity_message "# Page 1") "content"
      = Ok (PStr ("Markdown must maintain consistent formatting with the following page: "
                  +:+ nl +:+ nl +:+ " "
                  +:+ triple_dquote +:+ "# Page 1" +:+ triple_dquote))
   /\ occurs (triple_dquote +:+ "# Page 1" +:+ triple_dquote)
        (continuity_text "# Page 1") = true)
  /\ exists second,
       example_messages !! 1 = Some second
       /\ getitem_key second "role" = Ok (PStr "system")
       /\ getitem_key second "content"
          = Ok (PStr ("Markdown must maintain consistent formatting with the following page: "
                       +:+ String "010"%char (String "010"%char (String " "%char
                           (String "034"%char (String "034"%char (String "034"%char
                              ("# Page 1"
                               +:+ String "034"%char (String "034"%char
                                     (String "034"%char EmptyString))))))))))
       /\ occurs (String "034"%char (String "034"%char (String "034"%char
                     ("# Page 1"
                      +:+ String "034"%char (String "034"%char
                            (String "034"%char EmptyString))))))
            (match getitem_key second "content" with
             | Ok (PStr text) => text
             | _ => EmptyString
             end) = true.
Proof.
  pose proof (continuity_message_verbatim example_encoder initial_world 0
                "page2.png" true "# Page 1" example_messages eq_refl)
    as (Hnamed & _ & Hread & _).
  split.
  - apply Hnamed; [reflexivity | discriminate].
  - apply Hread; [reflexivity | discriminate].
Defined.

Lemma completion_wraps_failures_witness :
  completion "Error: " "." example_encoder example_transport
    (example_world (Some "unreachable")) 0 "page2.png" true "# Page 1"
  = (mk_world DEFAULT_SYSTEM_PROMPT (fun _ => mk_instance (Some "unreachable") [] None)
       [] [mk_call (Some "unreachable") example_messages []],
     Raise (mk_exn PlainException "Error: connection refused.")).
Proof.
  apply (proj1 (completion_wraps_failures "Error: " "." example_encoder
                  example_transport (example_world (Some "unreachable")) 0
                  "page2.png" true "# Page 1" example_messages eq_refl)
           example_transport_error);
    reflexivity.
Defined.

Lemma encoding_error_propagates_witness :
  _prepare_messages example_encoder initial_world 0 "missing.png" true "# Page 1"
  = Raise example_encoding_error
  /\ completion "Error: " "." example_encoder example_transport
       initial_world 0 "missing.png" true "# Page 1"
     = (initial_world, Raise example_encoding_error)
  /\ calls (completion "Error: " "." example_encoder example_transport
              initial_world 0 "missing.png" true "# Page 1").1
     = calls initial_world.
Proof.
  apply (encoding_error_propagates "Error: " "." example_encoder
           example_transport initial_world 0 "missing.png" true "# Page 1").
  reflexivity.
Defined.

Lemma setter_is_per_instance_witness :
  let w' := system_prompt_setter "Custom prompt" initial_world 0 "Transcribe." in
  cls_system_prompt w' = DEFAULT_SYSTEM_PROMPT
  /\ system_prompt w' 0 = "Transcribe."
  /\ system_prompt w' 1 = DEFAULT_SYSTEM_PROMPT.
Proof.
  destruct (setter_is_per_instance "Custom prompt" example_encoder
              initial_world 0 1 "Transcribe.") as (Hcls & _ & _ & _ & Hother & _);
    [discriminate|].
  split; [exact Hcls|]. split; [reflexivity|]. apply Hother. reflexivity.
Defined.

(** A response in the shape the code reads gives the completion result,
    with the empty box list for the absent field, after one transport
    call. *)
Example completion_returns :
  completion "Error: " "." example_encoder example_transport
    (example_world (Some "gpt-4o-mini")) 0 "page2.png" true "# Page 1"
  = (mk_world DEFAULT_SYSTEM_PROMPT (fun _ => mk_instance (Some "gpt-4o-mini") [] None)
       [] [mk_call (Some "gpt-4o-mini") example_messages []],
     Ok (mk_CompletionResponse (PStr "Hello") (PInt 10) (PInt 5) (PList []))).
Proof. reflexivity. Qed.

(** A response without the usage block is a [KeyError] inside the [try],
    which comes out in the completion error template. *)
Example completion_malformed_response :
  (completion "Error: " "." example_encoder example_transport
     (example_world (Some "no-usage")) 0 "page2.png" false "").2
  = Raise (mk_exn PlainException "Error: 'usage'.").
Proof. reflexivity. Qed.

(** An exception outside [Exception] passes [except Exception] as it is. *)
Example completion_cancelled :
  (completion "Error: " "." example_encoder example_transport
     (example_world (Some "cancelled")) 0 "page2.png" false "").2
  = Raise (mk_exn (BaseExceptionOnly "CancelledError") "").
Proof. reflexivity. Qed.

(** * Further properties of the code *)

(** ** [format_markdown]: malformed boxes *)

Lemma box_markdown_Ok_fields (box : pyobj) (block : string) :
  box_markdown box = Ok block -> exists fields, box_fields box = Some fields.
Proof.
  destruct box as [| | | | |kvs]; try done. unfold box_markdown; simpl.
  destruct (assoc "image" kvs) as [image|]; [|done].
  destruct (assoc "bounding_box" kvs) as [bounding_box|]; [|done].
  by eexists.
Qed.

Lemma comprehension_Ok_well_formed (boxes : list pyobj) (blocks : list string) :
  comprehension box_markdown boxes = Ok blocks -> well_formed_boxes boxes = true.
Proof.
  revert blocks. induction boxes as [|box boxes IH]; intros blocks; [done|].
  simpl. destruct (box_markdown box) as [block|e] eqn:Hbox; [|done].
  destruct (box_markdown_Ok_fields _ _ Hbox) as [fields ->]. simpl.
  destruct (comprehension box_markdown boxes) as [blocks'|e]; [|done].
  intros _. by apply (IH blocks').
Qed.

Lemma comprehension_first_Raise (good : list pyobj) (bad : pyobj)
    (rest : list pyobj) (e : exn) :
  well_formed_boxes good = true ->
  box_markdown bad = Raise e ->
  comprehension box_markdown (good ++ bad :: rest) = Raise e.
Proof.
  intros Hgood Hbad. induction good as [|box good IH]; simpl.
  - by rewrite Hbad.
  - simpl in Hgood. destruct (box_fields box) as [fields|] eqn:Hf; [|done].
    rewrite (box_markdown_fields _ _ Hf). simpl. by rewrite IH.
Qed.

Lemma format_markdown_nonempty_list (text : string) (box : pyobj)
    (boxes : list pyobj) :
  format_markdown text (PList (box :: boxes))
  = (blocks ← comprehension box_markdown (box :: boxes);
     Ok (re_sub_group1 MATCH_CODE_BLOCKS (re_sub_group1 MATCH_MARKDOWN_BLOCKS text)
         +:+ nl +:+ nl +:+ String.concat (nl +:+ nl) blocks)).
Proof. reflexivity. Qed.

(** X1: for a list of boxes, [format_markdown] returns exactly when every
    box is a dict that has the keys [image] and [bounding_box]; with any
    other box in the list it raises. *)
Theorem format_markdown_returns_iff_well_formed (text : string)
    (boxes : list pyobj) :
  (exists result, format_markdown text (PList boxes) = Ok result)
  <-> well_formed_boxes boxes = true.
Proof.
  split.
  - intros [result Hres]. destruct boxes as [|box boxes]; [done|].
    rewrite format_markdown_nonempty_list in Hres.
    destruct (comprehension box_markdown (box :: boxes)) as [blocks|e] eqn:Hc;
      [|done].
    by apply (comprehension_Ok_well_formed _ blocks).
  - intros Hwf. destruct boxes as [|box boxes]; [by eexists|].
    destruct (well_formed_boxes_fields _ Hwf) as [fields Hfields].
    eexists. by apply format_markdown_with_boxes.
Qed.

Lemma format_markdown_list_Raise (text : string) (good : list pyobj)
    (bad : pyobj) (rest : list pyobj) (e : exn) :
  well_formed_boxes good = true ->
  box_markdown bad = Raise e ->
  format_markdown text (PList (good ++ bad :: rest)) = Raise e.
Proof.
  intros Hgood Hbad.
  pose proof (comprehension_first_Raise good bad rest e Hgood Hbad) as Hc.
  destruct good as [|box good]; simpl app in *;
    rewrite format_markdown_nonempty_list, Hc; reflexivity.
Qed.

(** X2: the exception of a list of boxes is the exception of its first
    box that is not a dict with both keys: the boxes after it are not
    looked at, and the text plays no part. *)
Theorem format_markdown_first_bad_box (text : string) (good : list pyobj)
    (bad : pyobj) (rest : list pyobj) (e : exn) :
  well_formed_boxes good = true ->
  box_markdown bad = Raise e ->
  format_markdown text (PList (good ++ bad :: rest)) = Raise e.
Proof. apply format_markdown_list_Raise. Qed.

Lemma format_markdown_first_bad_box_witness :
  format_markdown "body" (PList ([example_box] ++ PInt 7 :: [PNone]))
  = Raise (mk_exn TypeError "'int' object is not subscriptable").
Proof. apply format_markdown_first_bad_box; reflexivity. Defined.

(** X3: a first box that is a dict without the key [image] raises
    [KeyError('image')], also when [bounding_box] is missing too; a first
    box with [image] and without [bounding_box] raises
    [KeyError('bounding_box')]. *)
Theorem format_markdown_missing_key (text : string)
    (kvs : list (string * pyobj)) (rest : list pyobj) :
  (assoc "image" kvs = None ->
   format_markdown text (PList (PDict kvs :: rest))
   = Raise (mk_exn KeyError "'image'"))
  /\ (forall image,
        assoc "image" kvs = Some image ->
        assoc "bounding_box" kvs = None ->
        format_markdown text (PList (PDict kvs :: rest))
        = Raise (mk_exn KeyError "'bounding_box'")).
Proof.
  split.
  - intros Himage.
    apply (format_markdown_list_Raise text [] (PDict kvs) rest); [done|].
    unfold box_markdown; simpl. by rewrite Himage.
  - intros image Himage Hbox.
    apply (format_markdown_list_Raise text [] (PDict kvs) rest); [done|].
    unfold box_markdown; simpl. by rewrite Himage, Hbox.
Qed.

Lemma format_markdown_missing_key_witness :
  format_markdown "body" (PList [PDict [("bounding_box", PList [])]; example_box])
  = Raise (mk_exn KeyError "'image'")
  /\ format_markdown "body" (PList [PDict [("image", PStr "AAAA")]])
     = Raise (mk_exn KeyError "'bounding_box'").
Proof.
  split.
  - apply (proj1 (format_markdown_missing_key "body" _ _)). reflexivity.
  - apply (proj2 (format_markdown_missing_key "body" _ _) (PStr "AAAA"));
      reflexivity.
Defined.

(** X4: a box argument that is truthy and not a list (one box dict passed
    bare, a non-empty str, a non-zero int, [True]) makes [format_markdown]
    raise a [TypeError]. *)
Theorem format_markdown_boxes_not_a_list (text : string) (bounding_boxes : pyobj) :
  truthy bounding_boxes = true ->
  (forall boxes, bounding_boxes <> PList boxes) ->
  exists e, format_markdown text bounding_boxes = Raise e
            /\ exn_cls e = TypeError.
Proof.
  intros Htruthy Hlist. unfold format_markdown. rewrite Htruthy.
  destruct bounding_boxes as [|b|n|s|boxes|kvs]; simpl in *.
  - done.
  - by eexists.
  - by eexists.
  - destruct s as [|c s]; [done|]. by eexists.
  - by destruct (Hlist boxes).
  - destruct kvs as [|[k v] kvs]; [done|]. by eexists.
Qed.

Lemma format_markdown_boxes_not_a_list_witness :
  exists e, format_markdown "body" example_box = Raise e
            /\ exn_cls e = TypeError.
Proof. apply format_markdown_boxes_not_a_list; [reflexivity | discriminate]. Defined.

(** X5: whether [format_markdown] raises, and what, depends on the boxes
    alone: an exception for one text is the exception for every text. *)
Theorem format_markdown_error_ignores_text (text text' : string)
    (bounding_boxes : pyobj) (e : exn) :
  format_markdown text bounding_boxes = Raise e ->
  format_markdown text' bounding_boxes = Raise e.
Proof.
  unfold format_markdown.
  destruct (truthy bounding_boxes); [|done].
  destruct (py_iter bounding_boxes) as [boxes|e']; [|done]. simpl.
  by destruct (comprehension box_markdown boxes).
Qed.

Lemma format_markdown_error_ignores_text_witness :
  format_markdown ("```" +:+ nl +:+ "x" +:+ nl +:+ "```") (PList [PNone])
  = Raise (mk_exn TypeError "'NoneType' object is not subscriptable").
Proof. apply (format_markdown_error_ignores_text "body"). reflexivity. Defined.

(** X6: only the entries [image] and [bounding_box] of a box are read:
    boxes that agree on these two entries (whatever other keys they have,
    in whatever order) give the same result. *)
Theorem format_markdown_reads_two_keys (text : string) (boxes boxes' : list pyobj) :
  well_formed_boxes boxes = true ->
  Forall2 (fun box box' => box_fields box = box_fields box') boxes boxes' ->
  format_markdown text (PList boxes) = format_markdown text (PList boxes').
Proof.
  intros Hwf Hsame.
  destruct (well_formed_boxes_fields _ Hwf) as [fields Hfields].
  assert (Hfields' : Forall2 (fun box f => box_fields box = Some f) boxes' fields).
  { clear Hwf. revert fields Hfields.
    induction Hsame as [|box box' boxes boxes' Heq _ IH]; intros fields Hfields.
    - by inversion Hfields.
    - inversion Hfields as [|? f ? fields' Hf Hrest]; subst.
      constructor; [by rewrite <- Heq | by apply IH]. }
  destruct Hsame as [|box box' boxes boxes' _ _]; [done|].
  rewrite (format_markdown_with_boxes text _ fields) by done.
  by rewrite (format_markdown_with_boxes text _ fields).
Qed.

Lemma format_markdown_reads_two_keys_witness :
  format_markdown "body" (PList [example_box])
  = format_markdown "body"
      (PList [PDict [("page", PInt 3);
                     ("bounding_box", PList [PInt 0; PInt 0; PInt 10; PInt 10]);
                     ("image", PStr "AAAA")]]).
Proof.
  apply format_markdown_reads_two_keys; [reflexivity | repeat constructor].
Defined.

(** ** [_prepare_messages] *)

Lemma app_inj_r_string (s s' p : string) : s +:+ p = s' +:+ p -> s = s'.
Proof.
  intros Heq.
  assert (Hs : strip_suffix p (s +:+ p) = Some s) by by apply strip_suffix_Some.
  rewrite Heq in Hs.
  assert (Hs' : strip_suffix p (s' +:+ p) = Some s') by by apply strip_suffix_Some.
  congruence.
Qed.

Lemma continuity_message_inj (prior_page prior_page' : string) :
  continuity_message prior_page = continuity_message prior_page' ->
  prior_page = prior_page'.
Proof.
  unfold continuity_message, continuity_text. intros [= Heq].
  change (prior_page +:+ triple_dquote = prior_page' +:+ triple_dquote) in Heq.
  by apply app_inj_r_string in Heq.
Qed.

Section prepare_messages_properties.

Variable encode_image_to_base64 : string -> outcome string.

Local Abbreviation prepare := (_prepare_messages encode_image_to_base64).

(** With [maintain_format] false the request does not depend on
    [prior_page], and it is the request that [maintain_format] true builds
    for the empty [prior_page]. *)
Theorem prepare_messages_ignores_prior_page (w : world) (self : nat)
    (image_path prior_page prior_page' : string) :
  prepare w self image_path false prior_page
  = prepare w self image_path false prior_page'
  /\ prepare w self image_path true ""
     = prepare w self image_path false prior_page.
Proof. done. Qed.

(** X7: the last message of a returned request has a content list of one
    part, of type [image_url], and the url of that part is the
    [data:image/png;base64,] prefix followed by what the encoder returned
    for the path. *)
Theorem prepare_messages_image_url (w : world) (self : nat)
    (image_path : string) (maintain_format : bool) (prior_page : string)
    (messages : list pyobj) :
  prepare w self image_path maintain_format prior_page = Ok messages ->
  exists base64_image message part,
    encode_image_to_base64 image_path = Ok base64_image
    /\ list.last messages = Some message
    /\ getitem_key message "content" = Ok (PList [part])
    /\ getitem_key part "type" = Ok (PStr "image_url")
    /\ image_url_of message
       = Ok (PStr ("data:image/png;base64," +:+ base64_image)).
Proof.
  intros (b64 & Henc & ->)%prepare_messages_Ok.
  exists b64. eexists. eexists. split; [done|]. split.
  - rewrite app_comm_cons, last_snoc. reflexivity.
  - by repeat split.
Qed.

(** The request depends on the state only through the prompt the
    object observes: not on its model, its keyword options, the warnings
    issued or the transport calls made. *)
Theorem prepare_messages_reads_prompt_only (w w' : world) (self self' : nat)
    (image_path : string) (maintain_format : bool) (prior_page : string) :
  system_prompt w self = system_prompt w' self' ->
  prepare w self image_path maintain_format prior_page
  = prepare w' self' image_path maintain_format prior_page.
Proof.
  unfold _prepare_messages, system_prompt. by intros ->.
Qed.

(** X8: two prior pages that give the same request (same object, same
    image, [maintain_format] true) are the same text: the continuity
    message keeps all of the prior page, and an empty prior page is told
    from every other by the missing message. *)
Theorem prepare_messages_prior_page_inj (w : world) (self : nat)
    (image_path prior_page prior_page' : string) (messages : list pyobj) :
  prepare w self image_path true prior_page = Ok messages ->
  prepare w self image_path true prior_page' = Ok messages ->
  prior_page = prior_page'.
Proof.
  intros (b64 & Henc & ->)%prepare_messages_Ok
         (b64' & Henc' & Heq)%prepare_messages_Ok.
  pose proof (nonempty_truthy prior_page) as Hne.
  pose proof (nonempty_truthy prior_page') as Hne'.
  destruct (truthy (PStr prior_page)), (truthy (PStr prior_page'));
    cbn [andb app] in Heq.
  - apply continuity_message_inj. congruence.
  - done.
  - done.
  - destruct (decide (prior_page = "")) as [->|Hp]; [|by apply Hne in Hp].
    destruct (decide (prior_page' = "")) as [->|Hp']; [done | by apply Hne' in Hp'].
Qed.

End prepare_messages_properties.

Lemma prepare_messages_image_url_witness :
  exists base64_image message part,
    example_encoder "page2.png" = Ok base64_image
    /\ list.last example_messages = Some message
    /\ getitem_key message "content" = Ok (PList [part])
    /\ getitem_key part "type" = Ok (PStr "image_url")
    /\ image_url_of message
       = Ok (PStr ("data:image/png;base64," +:+ base64_image)).
Proof.
  apply (prepare_messages_image_url example_encoder initial_world 0
           "page2.png" true "# Page 1" example_messages).
  reflexivity.
Defined.

Lemma prepare_messages_prior_page_inj_witness : "# Page 1" = "# Page 1".
Proof.
  apply (prepare_messages_prior_page_inj example_encoder initial_world 0
           "page2.png" "# Page 1" "# Page 1" example_messages);
    reflexivity.
Defined.

(** ** [completion]: reading the response *)

(** X9: [read_response] returns exactly on a response that is a dict
    whose [choices] is a list starting with a dict, whose first choice has
    a dict under [message] with a [content] entry, and whose [usage] is a
    dict with [prompt_tokens] and [completion_tokens]. The result carries
    these three values as they are, and for [bounding_boxes] the entry of
    the message, or the empty list when the message has none; choices
    after the first are not read. *)
Theorem read_response_Ok_iff (response : pyobj) (result : CompletionResponse) :
  read_response response = Ok result
  <-> exists message content prompt_tokens completion_tokens,
        response_fields response
        = Some (message, content, prompt_tokens, completion_tokens)
        /\ result
           = mk_CompletionResponse content prompt_tokens completion_tokens
               (default (PList []) (assoc "bounding_boxes" message)).
Proof.
  unfold read_response, response_fields, getitem_key, getitem_0, get_default.
  split.
  - intros H.
    repeat (case_match; simplify_eq/=; try done).
    by do 4 eexists.
  - intros (message & content & prompt_tokens & completion_tokens & H & ->).
    repeat (case_match; simplify_eq/=; try done).
Qed.

(** X10: a response with a readable first choice and no [usage] entry
    raises [KeyError('usage')], and one whose usage dict lacks a token
    count raises the [KeyError] of that count; no count is replaced by a
    default. *)
Theorem read_response_missing_accounting (kvs choice message : list (string * pyobj))
    (others : list pyobj) (content : pyobj) :
  assoc "choices" kvs = Some (PList (PDict choice :: others)) ->
  assoc "message" choice = Some (PDict message) ->
  assoc "content" message = Some content ->
  (assoc "usage" kvs = None ->
   read_response (PDict kvs) = Raise (mk_exn KeyError "'usage'"))
  /\ (forall usage,
        assoc "usage" kvs = Some (PDict usage) ->
        assoc "prompt_tokens" usage = None ->
        read_response (PDict kvs) = Raise (mk_exn KeyError "'prompt_tokens'"))
  /\ (forall usage prompt_tokens,
        assoc "usage" kvs = Some (PDict usage) ->
        assoc "prompt_tokens" usage = Some prompt_tokens ->
        assoc "completion_tokens" usage = None ->
        read_response (PDict kvs) = Raise (mk_exn KeyError "'completion_tokens'")).
Proof.
  intros Hchoices Hmessage Hcontent.
  unfold read_response, getitem_key, getitem_0. simpl.
  rewrite Hchoices. simpl. rewrite Hmessage. simpl. rewrite Hcontent. simpl.
  split; [|split].
  - by intros ->.
  - intros usage -> Hprompt. simpl. by rewrite Hprompt.
  - intros usage prompt_tokens -> Hprompt Hcompletion. simpl.
    rewrite Hprompt. simpl. by rewrite Hcompletion.
Qed.

Lemma read_response_missing_accounting_witness :
  read_response
    (PDict [("choices",
             PList [PDict [("message", PDict [("content", PStr "Hello")])]])])
  = Raise (mk_exn KeyError "'usage'")
  /\ read_response
       (PDict [("choices",
                PList [PDict [("message", PDict [("content", PStr "Hello")])]]);
               ("usage", PDict [("prompt_tokens", PInt 10)])])
     = Raise (mk_exn KeyError "'completion_tokens'").
Proof.
  split.
  - apply (proj1 (read_response_missing_accounting
                    [("choices",
                      PList [PDict [("message", PDict [("content", PStr "Hello")])]])]
                    [("message", PDict [("content", PStr "Hello")])]
                    [("content", PStr "Hello")] [] (PStr "Hello")
                    eq_refl eq_refl eq_refl)).
    reflexivity.
  - apply (proj2 (proj2 (read_response_missing_accounting
                    [("choices",
                      PList [PDict [("message", PDict [("content", PStr "Hello")])]]);
                     ("usage", PDict [("prompt_tokens", PInt 10)])]
                    [("message", PDict [("content", PStr "Hello")])]
                    [("content", PStr "Hello")] [] (PStr "Hello")
                    eq_refl eq_refl eq_refl))
             [("prompt_tokens", PInt 10)] (PInt 10));
      reflexivity.
Defined.

(** X11: a response whose [choices] is the empty list raises
    [IndexError], whatever else the response holds: the choice is read
    before the usage block. *)
Theorem read_response_no_choices (kvs : list (string * pyobj)) :
  assoc "choices" kvs = Some (PList []) ->
  read_response (PDict kvs)
  = Raise (mk_exn IndexError "list index out of range").
Proof.
  intros Hchoices. unfold read_response, getitem_key. simpl.
  by rewrite Hchoices.
Qed.

Lemma read_response_no_choices_witness :
  read_response (PDict [("usage", PDict []); ("choices", PList [])])
  = Raise (mk_exn IndexError "list index out of range").
Proof. apply read_response_no_choices. reflexivity. Defined.

(** ** [completion]: state and outcomes *)

Section completion_properties.

Variables COMPLETION_ERROR_before COMPLETION_ERROR_after : string.
Variable encode_image_to_base64 : string -> outcome string.
Variable acompletion : list transport_call -> transport_call -> outcome pyobj.

Local Abbreviation prepare := (_prepare_messages encode_image_to_base64).
Local Abbreviation complete :=
  (completion COMPLETION_ERROR_before COMPLETION_ERROR_after
     encode_image_to_base64 acompletion).
Local Abbreviation wrap :=
  (COMPLETION_ERROR_format COMPLETION_ERROR_before COMPLETION_ERROR_after).

Lemma send_and_read_cases (w : world) (self : nat) (messages : list pyobj) :
  (exists k e,
     duplicate_keyword (inst_kwargs (heap w self)) = Some k
     /\ exn_cls e = TypeError
     /\ send_and_read acompletion w self messages = (w, Raise e))
  \/ (duplicate_keyword (inst_kwargs (heap w self)) = None
      /\ send_and_read acompletion w self messages
         = (sent w self messages,
            response ← acompletion (calls w) (call_of w self messages);
            read_response response)).
Proof.
  unfold send_and_read.
  destruct (duplicate_keyword (inst_kwargs (heap w self))) as [k|].
  - left. do 2 eexists. split; [done|]. split; [|reflexivity]. done.
  - by right.
Qed.

(** X12: whatever its outcome, [completion] leaves the class attribute,
    the objects and the warnings as they were, and the transport calls
    either as they were or longer by the one call that carries the
    object's model, the messages [_prepare_messages] built and the
    object's keyword options. *)
Theorem completion_frame (w : world) (self : nat) (image_path : string)
    (maintain_format : bool) (prior_page : string) :
  let w' := (complete w self image_path maintain_format prior_page).1 in
  cls_system_prompt w' = cls_system_prompt w
  /\ heap w' = heap w
  /\ warnings w' = warnings w
  /\ (calls w' = calls w
      \/ exists messages,
           prepare w self image_path maintain_format prior_page = Ok messages
           /\ calls w' = calls w ++ [call_of w self messages]).
Proof.
  cbv zeta. unfold completion.
  destruct (prepare w self image_path maintain_format prior_page)
    as [messages|e] eqn:Hprep; [|simpl; by auto].
  destruct (send_and_read_cases w self messages)
    as [(k & e & _ & _ & ->) | [_ ->]].
  - destruct (is_Exception e); simpl; by auto.
  - assert (Hsent : forall r : outcome CompletionResponse,
               cls_system_prompt (sent w self messages, r).1 = cls_system_prompt w
               /\ heap (sent w self messages, r).1 = heap w
               /\ warnings (sent w self messages, r).1 = warnings w
               /\ (calls (sent w self messages, r).1 = calls w
                   \/ exists messages',
                        Ok messages = Ok messages'
                        /\ calls (sent w self messages, r).1
                           = calls w ++ [call_of w self messages'])).
    { intros r. simpl. repeat split. right. by exists messages. }
    destruct (_ ← acompletion _ _; _) as [r|err];
      [|destruct (is_Exception err)]; apply Hsent.
Qed.

(** X13: [completion] returns a result exactly when the encoder returns,
    no keyword option repeats [model] or [messages], the transport returns
    a response and the response reads; the result is then what
    [read_response] gives, after exactly one transport call. *)
Theorem completion_Ok_iff (w w' : world) (self : nat) (image_path : string)
    (maintain_format : bool) (prior_page : string) (result : CompletionResponse) :
  complete w self image_path maintain_format prior_page = (w', Ok result)
  <-> exists messages response,
        prepare w self image_path maintain_format prior_page = Ok messages
        /\ duplicate_keyword (inst_kwargs (heap w self)) = None
        /\ acompletion (calls w) (call_of w self messages) = Ok response
        /\ read_response response = Ok result
        /\ w' = sent w self messages.
Proof.
  unfold completion. split.
  - destruct (prepare w self image_path maintain_format prior_page)
      as [messages|e] eqn:Hprep; [|done].
    destruct (send_and_read_cases w self messages)
      as [(k & e & _ & He & ->) | [Hdup ->]].
    + assert (is_Exception e = true) as ->
        by (unfold is_Exception; by rewrite He).
      done.
    + destruct (acompletion (calls w) (call_of w self messages))
        as [response|err] eqn:Hsend; simpl.
      * destruct (read_response response) as [r|err] eqn:Hread.
        -- intros [= <- <-]. by exists messages, response.
        -- by destruct (is_Exception err).
      * by destruct (is_Exception err).
  - intros (messages & response & -> & Hdup & Hsend & Hread & ->).
    destruct (send_and_read_cases w self messages)
      as [(k & e & Hk & _) | [_ ->]]; [congruence|].
    rewrite Hsend. simpl. by rewrite Hread.
Qed.

(** X14: an exception of the transport whose class is outside [Exception]
    (a cancellation, a keyboard interrupt) leaves [completion] as it is,
    outside the completion error template, after the one call. *)
Theorem completion_passes_base_exceptions (w : world) (self : nat)
    (image_path : string) (maintain_format : bool) (prior_page : string)
    (messages : list pyobj) (err : exn) :
  prepare w self image_path maintain_format prior_page = Ok messages ->
  duplicate_keyword (inst_kwargs (heap w self)) = None ->
  acompletion (calls w) (call_of w self messages) = Raise err ->
  is_Exception err = false ->
  complete w self image_path maintain_format prior_page
  = (sent w self messages, Raise err).
Proof.
  intros Hprep Hdup Hsend Herr. unfold completion. rewrite Hprep.
  destruct (send_and_read_cases w self messages)
    as [(k & e & Hk & _) | [_ ->]]; [congruence|].
  rewrite Hsend. simpl. by rewrite Herr.
Qed.

(** X15: an exception that leaves [completion] is the encoder's, with the
    state untouched; or the [Exception] built from the completion error
    template around the text of a cause of class [Exception]; or an
    exception outside [Exception] that the transport raised. No other
    exception leaves it. *)
Theorem completion_Raise_cases (w w' : world) (self : nat) (image_path : string)
    (maintain_format : bool) (prior_page : string) (e : exn) :
  complete w self image_path maintain_format prior_page = (w', Raise e) ->
  (encode_image_to_base64 image_path = Raise e /\ w' = w)
  \/ (exists err, is_Exception err = true
                  /\ e = mk_exn PlainException (wrap err))
  \/ (is_Exception e = false
      /\ exists messages,
           acompletion (calls w) (call_of w self messages) = Raise e
           /\ w' = sent w self messages).
Proof.
  unfold completion.
  destruct (prepare w self image_path maintain_format prior_page)
    as [messages|e0] eqn:Hprep.
  - destruct (send_and_read_cases w self messages)
      as [(k & e0 & _ & He0 & ->) | [Hdup ->]].
    + assert (is_Exception e0 = true) as -> by (unfold is_Exception; by rewrite He0).
      intros [= <- <-]. right; left. exists e0.
      split; [unfold is_Exception; by rewrite He0 | done].
    + destruct (acompletion (calls w) (call_of w self messages))
        as [response|err] eqn:Hsend; simpl.
      * destruct (read_response response) as [r|err] eqn:Hread; [done|].
        rewrite (read_response_raises_Exception _ _ Hread).
        intros [= <- <-]. right; left. exists err.
        by rewrite (read_response_raises_Exception _ _ Hread).
      * destruct (is_Exception err) eqn:Herr; intros [= <- <-].
        -- right; left. by exists err.
        -- right; right. split; [done|]. by exists messages.
  - apply prepare_messages_Raise in Hprep.
    intros [= <- <-]. by left.
Qed.

End completion_properties.

Lemma completion_passes_base_exceptions_witness :
  completion "Error: " "." example_encoder example_transport
    (example_world (Some "cancelled")) 0 "page2.png" true "# Page 1"
  = (sent (example_world (Some "cancelled")) 0 example_messages,
     Raise (mk_exn (BaseExceptionOnly "CancelledError") "")).
Proof.
  apply (completion_passes_base_exceptions "Error: " "." example_encoder
           example_transport (example_world (Some "cancelled")) 0 "page2.png"
           true "# Page 1" example_messages);
    reflexivity.
Defined.

Lemma completion_Raise_cases_witness :
  (example_encoder "page2.png" = Raise (mk_exn PlainException "Error: 'usage'.")
   /\ sent (example_world (Some "no-usage")) 0
        [system_message DEFAULT_SYSTEM_PROMPT; user_message "AAAA"]
      = example_world (Some "no-usage"))
  \/ (exists err, is_Exception err = true
                  /\ mk_exn PlainException "Error: 'usage'."
                     = mk_exn PlainException
                         (COMPLETION_ERROR_format "Error: " "." err))
  \/ (is_Exception (mk_exn PlainException "Error: 'usage'.") = false
      /\ exists messages,
           example_transport (calls (example_world (Some "no-usage")))
             (call_of (example_world (Some "no-usage")) 0 messages)
           = Raise (mk_exn PlainException "Error: 'usage'.")
           /\ sent (example_world (Some "no-usage")) 0
                [system_message DEFAULT_SYSTEM_PROMPT; user_message "AAAA"]
              = sent (example_world (Some "no-usage")) 0 messages).
Proof.
  apply (completion_Raise_cases "Error: " "." example_encoder example_transport
           (example_world (Some "no-usage")) _ 0 "page2.png" false "").
  reflexivity.
Defined.

(** ** The [system_prompt] setter in sequence *)

Section setter_properties.

Variable CUSTOM_SYSTEM_PROMPT_WARNING : string.
Variables COMPLETION_ERROR_before COMPLETION_ERROR_after : string.
Variable encode_image_to_base64 : string -> outcome string.
Variable acompletion : list transport_call -> transport_call -> outcome pyobj.

Local Abbreviation prepare := (_prepare_messages encode_image_to_base64).
Local Abbreviation complete :=
  (completion COMPLETION_ERROR_before COMPLETION_ERROR_after
     encode_image_to_base64 acompletion).
Local Abbreviation set_prompt := (system_prompt_setter CUSTOM_SYSTEM_PROMPT_WARNING).
Local Abbreviation run := (run_setters CUSTOM_SYSTEM_PROMPT_WARNING).

Lemma setter_system_prompt (w : world) (self obj : nat) (prompt : string) :
  system_prompt (set_prompt w obj prompt) self
  = if bool_decide (obj = self) then prompt else system_prompt w self.
Proof.
  unfold system_prompt, get_system_prompt_attr, system_prompt_setter. simpl.
  case_bool_decide as Hobj.
  - subst. by rewrite fn_lookup_insert.
  - by rewrite fn_lookup_insert_ne.
Qed.

Lemma setter_model_kwargs (w : world) (self obj : nat) (prompt : string) :
  inst_model (heap (set_prompt w obj prompt) self) = inst_model (heap w self)
  /\ inst_kwargs (heap (set_prompt w obj prompt) self) = inst_kwargs (heap w self).
Proof.
  unfold system_prompt_setter. simpl.
  destruct (decide (obj = self)) as [->|Hne].
  - by rewrite fn_lookup_insert.
  - by rewrite fn_lookup_insert_ne.
Qed.

(** X16: after any run of prompt assignments, each object observes the
    prompt of the last assignment made to it, or what it observed before
    the run when none was made to it; one warning has been issued per
    assignment; and the class attribute, the transport calls and every
    object's model and keyword options are as before the run. *)
Theorem run_setters_last_write_wins (w : world) (assignments : list (nat * string)) :
  let w' := run w assignments in
  length (warnings w') = length (warnings w) + length assignments
  /\ cls_system_prompt w' = cls_system_prompt w
  /\ calls w' = calls w
  /\ forall self : nat,
       system_prompt w' self
       = default (system_prompt w self) (last_assigned self assignments)
       /\ inst_model (heap w' self) = inst_model (heap w self)
       /\ inst_kwargs (heap w' self) = inst_kwargs (heap w self).
Proof.
  cbv zeta. revert w.
  induction assignments as [|[obj prompt] rest IH]; intros w.
  - simpl. repeat split. lia.
  - unfold run_setters. simpl fold_left. fold (run (set_prompt w obj prompt) rest).
    destruct (IH (set_prompt w obj prompt)) as (Hwarn & Hcls & Hcalls & Hobjs).
    split; [|split; [|split]].
    + rewrite Hwarn. unfold system_prompt_setter. simpl.
      rewrite length_app. simpl. lia.
    + by rewrite Hcls.
    + by rewrite Hcalls.
    + intros self. destruct (Hobjs self) as (Hprompt & Hmodel & Hkwargs).
      destruct (setter_model_kwargs w self obj prompt) as [Hm Hk].
      split; [|split]; [|congruence..].
      rewrite Hprompt, setter_system_prompt. simpl.
      destruct (last_assigned self rest); [done|]. by case_bool_decide.
Qed.

(** X17: after the prompt of an object has been overridden, a completion
    on the object whose encoder returns sends one transport call, with the
    model and keyword options the object had before the override and with
    messages that start with the system message of the new prompt. Read
    through its fields and keys: the last logged call has the object's
    model and keyword options, and the first of its messages has the role
    [system] and the new prompt as its content. *)
Theorem override_reaches_transport (w : world) (self : nat) (prompt : string)
    (image_path : string) (maintain_format : bool) (prior_page : string)
    (messages : list pyobj) :
  let w1 := set_prompt w self prompt in
  prepare w1 self image_path maintain_format prior_page = Ok messages ->
  duplicate_keyword (inst_kwargs (heap w self)) = None ->
  head messages = Some (system_message prompt)
  /\ calls (complete w1 self image_path maintain_format prior_page).1
     = calls w ++ [mk_call (inst_model (heap w self)) messages
                     (inst_kwargs (heap w self))]
  /\ exists call first,
       list.last (calls (complete w1 self image_path maintain_format prior_page).1)
       = Some call
       /\ call_model call = inst_model (heap w self)
       /\ call_kwargs call = inst_kwargs (heap w self)
       /\ call_messages call = messages
       /\ head (call_messages call) = Some first
       /\ getitem_key first "role" = Ok (PStr "system")
       /\ getitem_key first "content" = Ok (PStr prompt).
Proof.
  cbv zeta. intros Hprep Hdup.
  destruct (setter_model_kwargs w self self prompt) as [Hm Hk].
  assert (Hfirst : exists first,
             head messages = Some first
             /\ getitem_key first "role" = Ok (PStr "system")
             /\ getitem_key first "content" = Ok (PStr prompt)).
  { destruct (prepare_messages_entries _ _ _ _ _ _ _ Hprep)
      as (_ & _ & (first & Hhead & Hrole & Hcontent) & _).
    exists first. split; [done|]. split; [done|].
    rewrite Hcontent. unfold system_prompt_setter. simpl.
    by rewrite fn_lookup_insert. }
  assert (Hlog : calls (complete (set_prompt w self prompt) self image_path
                          maintain_format prior_page).1
                 = calls w ++ [mk_call (inst_model (heap w self)) messages
                                 (inst_kwargs (heap w self))]);
    [|split; [|split; [exact Hlog|]]].
  3: { destruct Hfirst as (first & Hhead & Hrole & Hcontent).
       exists (mk_call (inst_model (heap w self)) messages
                 (inst_kwargs (heap w self))), first.
       rewrite Hlog, last_snoc. by repeat split. }
  2: { apply prepare_messages_Ok in Hprep as (b64 & _ & ->).
       rewrite setter_system_prompt. by rewrite bool_decide_eq_true_2. }
  - unfold completion. rewrite Hprep.
    destruct (send_and_read_cases acompletion (set_prompt w self prompt) self messages)
      as [(k & e & Hk' & _) | [_ ->]]; [congruence|].
    assert (Hcalls : forall r : outcome CompletionResponse,
               calls (sent (set_prompt w self prompt) self messages, r).1
               = calls w ++ [mk_call (inst_model (heap w self)) messages
                               (inst_kwargs (heap w self))]).
    { intros r. simpl. unfold call_of. by rewrite Hm, Hk. }
    destruct (_ ← acompletion _ _; _) as [r|err];
      [|destruct (is_Exception err)]; apply Hcalls.
Qed.

(** X18: prompt assignments to two different objects commute: in either
    order they leave the same objects, warnings, class attribute and
    transport calls. *)
Theorem setters_commute (w : world) (a b : nat) (p q : string) :
  a <> b ->
  let w1 := set_prompt (set_prompt w a p) b q in
  let w2 := set_prompt (set_prompt w b q) a p in
  (forall obj, heap w1 obj = heap w2 obj)
  /\ warnings w1 = warnings w2
  /\ cls_system_prompt w1 = cls_system_prompt w2
  /\ calls w1 = calls w2.
Proof.
  intros Hne. cbv zeta. unfold system_prompt_setter. simpl.
  split; [|done].
  intros obj.
  rewrite (fn_lookup_insert_ne _ a b) by done.
  rewrite (fn_lookup_insert_ne _ b a) by done.
  destruct (decide (obj = a)) as [->|Ha]; [|destruct (decide (obj = b)) as [->|Hb]].
  - rewrite (fn_lookup_insert_ne _ b a) by done. by rewrite !fn_lookup_insert.
  - rewrite (fn_lookup_insert_ne _ a b) by done. by rewrite !fn_lookup_insert.
  - by rewrite !fn_lookup_insert_ne.
Qed.

End setter_properties.

Lemma override_reaches_transport_witness :
  head [system_message "Transcribe."; user_message "AAAA"]
  = Some (system_message "Transcribe.")
  /\ calls (completion "Error: " "." example_encoder example_transport
              (system_prompt_setter "Custom prompt"
                 (example_world (Some "gpt-4o-mini")) 0 "Transcribe.")
              0 "page2.png" false "").1
     = calls (example_world (Some "gpt-4o-mini"))
       ++ [mk_call (Some "gpt-4o-mini")
             [system_message "Transcribe."; user_message "AAAA"] []]
  /\ exists call first,
       list.last
         (calls (completion "Error: " "." example_encoder example_transport
                   (system_prompt_setter "Custom prompt"
                      (example_world (Some "gpt-4o-mini")) 0 "Transcribe.")
                   0 "page2.png" false "").1)
       = Some call
       /\ call_model call = Some "gpt-4o-mini"
       /\ call_kwargs call = []
       /\ call_messages call
          = [system_message "Transcribe."; user_message "AAAA"]
       /\ head (call_messages call) = Some first
       /\ getitem_key first "role" = Ok (PStr "system")
       /\ getitem_key first "content" = Ok (PStr "Transcribe.").
Proof.
  apply (override_reaches_transport "Custom prompt" "Error: " "."
           example_encoder example_transport
           (example_world (Some "gpt-4o-mini")) 0 "Transcribe."
           "page2.png" false "");
    reflexivity.
Defined.

Lemma setters_commute_witness :
  warnings (system_prompt_setter "Custom prompt"
              (system_prompt_setter "Custom prompt" initial_world 0 "A") 1 "B")
  = warnings (system_prompt_setter "Custom prompt"
                (system_prompt_setter "Custom prompt" initial_world 1 "B") 0 "A").
Proof.
  destruct (setters_commute "Custom prompt" initial_world 0 1 "A" "B")
    as (_ & Hwarnings & _); [discriminate | exact Hwarnings].
Defined.

(** ** [__init__] and the validations *)

Section init_properties.

Variable BaseModel_init :
  world -> nat -> option string -> list (string * pyobj) -> world * outcome unit.
Variable error_text : string -> pyobj -> string.
Variable litellm_validate_environment : pyobj -> outcome pyobj.
Variable litellm_supports_vision : pyobj -> outcome pyobj.
Variable litellm_check_valid_key : pyobj -> outcome pyobj.

Local Abbreviation init :=
  (__init__ BaseModel_init error_text litellm_validate_environment
     litellm_supports_vision litellm_check_valid_key).
Local Abbreviation error := (package_error error_text).

Lemma validate_environment_Ok (w : world) (self : nat) :
  validate_environment error_text litellm_validate_environment w self = Ok tt
  <-> environment_ok (litellm_validate_environment (model_value (heap w self)))
      = true.
Proof.
  unfold validate_environment, environment_ok.
  destruct (litellm_validate_environment _) as [env_config|e]; simpl; [|done].
  destruct (getitem_key env_config "keys_in_environment") as [keys|e]; simpl;
    [|done].
  by destruct (truthy keys).
Qed.

Lemma validate_model_Ok (w : world) (self : nat) :
  validate_model error_text litellm_supports_vision w self = Ok tt
  <-> answers_yes (litellm_supports_vision (model_value (heap w self))) = true.
Proof.
  unfold validate_model, answers_yes.
  destruct (litellm_supports_vision _) as [v|e]; simpl; [|done].
  by destruct (truthy v).
Qed.

Lemma validate_access_Ok (w : world) (self : nat) :
  validate_access error_text litellm_check_valid_key w self = Ok tt
  <-> answers_yes (litellm_check_valid_key (model_value (heap w self))) = true.
Proof.
  unfold validate_access, answers_yes.
  destruct (litellm_check_valid_key _) as [v|e]; simpl; [|done].
  by destruct (truthy v).
Qed.

(** X19: [__init__] returns exactly when the base initialiser returns and,
    for the model the object then has, the environment answer has a truthy
    [keys_in_environment], the model is answered to support vision and the
    key is answered to be valid; the state is then the one the base
    initialiser left. *)
Theorem init_Ok_iff (w w' : world) (self : nat) (model : option string)
    (kwargs : list (string * pyobj)) :
  init w self model kwargs = (w', Ok tt)
  <-> BaseModel_init w self model kwargs = (w', Ok tt)
      /\ environment_ok
           (litellm_validate_environment (model_value (heap w' self))) = true
      /\ answers_yes (litellm_supports_vision (model_value (heap w' self))) = true
      /\ answers_yes (litellm_check_valid_key (model_value (heap w' self))) = true.
Proof.
  unfold __init__.
  rewrite <- validate_environment_Ok, <- validate_model_Ok, <- validate_access_Ok.
  destruct (BaseModel_init w self model kwargs) as [w1 [[]|e]]; split.
  - intros [= <- H].
    destruct (validate_environment _ _ w1 self) as [[]|e]; [|done].
    destruct (validate_model _ _ w1 self) as [[]|e]; [|done].
    done.
  - intros ([= <-] & -> & -> & ->). done.
  - done.
  - by intros [[=] _].
Qed.

(** X20: the validations fail in the order they are written. A falsy
    [keys_in_environment] raises [MissingEnvironmentVariables] with the
    environment answer as its [extra_info], whatever the other two
    validators would say; with the environment passed, a model answered
    not to support vision raises [NotAVisionModel], whatever the key check
    would say; with both passed, a key answered invalid raises
    [ModelAccessError]; the last two carry the model as [extra_info]. *)
Theorem init_first_failure (w w' : world) (self : nat) (model : option string)
    (kwargs : list (string * pyobj)) :
  BaseModel_init w self model kwargs = (w', Ok tt) ->
  let m := model_value (heap w' self) in
  (forall env_config keys_in_environment,
     litellm_validate_environment m = Ok env_config ->
     getitem_key env_config "keys_in_environment" = Ok keys_in_environment ->
     truthy keys_in_environment = false ->
     init w self model kwargs
     = (w', Raise (error "MissingEnvironmentVariables" env_config)))
  /\ (forall supported,
        environment_ok (litellm_validate_environment m) = true ->
        litellm_supports_vision m = Ok supported ->
        truthy supported = false ->
        init w self model kwargs
        = (w', Raise (error "NotAVisionModel" (PDict [("model", m)]))))
  /\ (forall valid,
        environment_ok (litellm_validate_environment m) = true ->
        answers_yes (litellm_supports_vision m) = true ->
        litellm_check_valid_key m = Ok valid ->
        truthy valid = false ->
        init w self model kwargs
        = (w', Raise (error "ModelAccessError" (PDict [("model", m)])))).
Proof.
  intros Hbase. cbv zeta. unfold __init__. rewrite Hbase.
  split; [|split].
  - intros env_config keys Henv Hkeys Hfalsy.
    unfold validate_environment. rewrite Henv. simpl. rewrite Hkeys. simpl.
    by rewrite Hfalsy.
  - intros supported Henv%validate_environment_Ok Hvision Hfalsy.
    rewrite Henv. simpl. unfold validate_model. rewrite Hvision. simpl.
    by rewrite Hfalsy.
  - intros valid Henv%validate_environment_Ok Hvision%validate_model_Ok
           Hkey Hfalsy.
    rewrite Henv. simpl. rewrite Hvision. simpl.
    unfold validate_access. rewrite Hkey. simpl. by rewrite Hfalsy.
Qed.

(** X21: an environment answer without the key [keys_in_environment]
    makes [__init__] raise the [KeyError] of the subscript, not
    [MissingEnvironmentVariables]; and an exception of a validator of
    [litellm] leaves [__init__] as it is. *)
Theorem init_oracle_errors (w w' : world) (self : nat) (model : option string)
    (kwargs : list (string * pyobj)) :
  BaseModel_init w self model kwargs = (w', Ok tt) ->
  let m := model_value (heap w' self) in
  (forall kvs,
     litellm_validate_environment m = Ok (PDict kvs) ->
     assoc "keys_in_environment" kvs = None ->
     init w self model kwargs
     = (w', Raise (mk_exn KeyError "'keys_in_environment'")))
  /\ (forall e,
        litellm_validate_environment m = Raise e ->
        init w self model kwargs = (w', Raise e))
  /\ (forall e,
        environment_ok (litellm_validate_environment m) = true ->
        litellm_supports_vision m = Raise e ->
        init w self model kwargs = (w', Raise e))
  /\ (forall e,
        environment_ok (litellm_validate_environment m) = true ->
        answers_yes (litellm_supports_vision m) = true ->
        litellm_check_valid_key m = Raise e ->
        init w self model kwargs = (w', Raise e)).
Proof.
  intros Hbase. cbv zeta. unfold __init__. rewrite Hbase.
  split; [|split; [|split]].
  - intros kvs Henv Hkey. unfold validate_environment. rewrite Henv. simpl.
    by rewrite Hkey.
  - intros e Henv. unfold validate_environment. by rewrite Henv.
  - intros e Henv%validate_environment_Ok Hvision.
    rewrite Henv. simpl. unfold validate_model. by rewrite Hvision.
  - intros e Henv%validate_environment_Ok Hvision%validate_model_Ok Hkey.
    rewrite Henv. simpl. rewrite Hvision. simpl.
    unfold validate_access. by rewrite Hkey.
Qed.

End init_properties.

Lemma init_first_failure_witness :
  __init__ example_BaseModel_init example_error_text
    example_validate_environment example_supports_vision
    example_check_valid_key initial_world 0 (Some "no-key") []
  = ((example_BaseModel_init initial_world 0 (Some "no-key") []).1,
     Raise (package_error example_error_text "MissingEnvironmentVariables"
              (PDict [("keys_in_environment", PBool false);
                      ("missing_keys", PList [PStr "OPENAI_API_KEY"])])))
  /\ __init__ example_BaseModel_init example_error_text
       example_validate_environment example_supports_vision
       example_check_valid_key initial_world 0 (Some "text-only") []
     = ((example_BaseModel_init initial_world 0 (Some "text-only") []).1,
        Raise (package_error example_error_text "NotAVisionModel"
                 (PDict [("model", PStr "text-only")])))
  /\ __init__ example_BaseModel_init example_error_text
       example_validate_environment example_supports_vision
       example_check_valid_key initial_world 0 (Some "bad-key") []
     = ((example_BaseModel_init initial_world 0 (Some "bad-key") []).1,
        Raise (package_error example_error_text "ModelAccessError"
                 (PDict [("model", PStr "bad-key")]))).
Proof.
  split; [|split].
  - apply (proj1 (init_first_failure example_BaseModel_init example_error_text
                    example_validate_environment example_supports_vision
                    example_check_valid_key initial_world _ 0 (Some "no-key") []
                    eq_refl)
             _ (PBool false));
      reflexivity.
  - apply (proj1 (proj2 (init_first_failure example_BaseModel_init
                           example_error_text example_validate_environment
                           example_supports_vision example_check_valid_key
                           initial_world _ 0 (Some "text-only") [] eq_refl))
             (PBool false));
      reflexivity.
  - apply (proj2 (proj2 (init_first_failure example_BaseModel_init
                           example_error_text example_validate_environment
                           example_supports_vision example_check_valid_key
                           initial_world _ 0 (Some "bad-key") [] eq_refl))
             (PBool false));
      reflexivity.
Defined.

Lemma init_oracle_errors_witness :
  __init__ example_BaseModel_init example_error_text
    (fun _ => Ok (PDict [("missing_keys", PList [])]))
    example_supports_vision example_check_valid_key
    initial_world 0 (Some "gpt-4o-mini") []
  = ((example_BaseModel_init initial_world 0 (Some "gpt-4o-mini") []).1,
     Raise (mk_exn KeyError "'keys_in_environment'")).
Proof.
  apply (proj1 (init_oracle_errors example_BaseModel_init example_error_text
                  (fun _ => Ok (PDict [("missing_keys", PList [])]))
                  example_supports_vision example_check_valid_key
                  initial_world _ 0 (Some "gpt-4o-mini") [] eq_refl)
           [("missing_keys", PList [])]);
    reflexivity.
Defined.

(** A model that passes the three validations is constructed. *)
Example init_returns :
  (__init__ example_BaseModel_init example_error_text
     example_validate_environment example_supports_vision
     example_check_valid_key initial_world 0 (Some "gpt-4o-mini") []).2
  = Ok tt.
Proof. reflexivity. Qed.
